(** * trivia_api: the Flask question catalogue and quiz selection

    A shallow embedding of [backend/flaskr/__init__.py]: the pagination
    helper, the seven view functions registered by [create_app], the URL map
    that dispatches to them and the error handlers that answer for them. *)

From Stdlib Require Import ZArith Lia Ascii.
From stdpp Require Import gmap strings list fin_maps pretty.

Open Scope Z_scope.

(** ** Python values *)

(** What [request.get_json()] hands to a view and what [jsonify] takes back.
    Numbers are the integers; floating-point numbers are outside the model.
    [JNull] is Python's [None]. *)
#[warnings="-register-all"]
Inductive json : Type :=
  | JNull
  | JBool (b : bool)
  | JNum (n : Z)
  | JStr (s : string)
  | JArr (xs : list json)
  | JObj (kv : gmap string json).

(** The exceptions the views can meet, other than the ones [abort] raises. *)
Inductive exception : Type :=
  | AttributeError
  | KeyError
  | TypeError
  | ValueError
  | NameError
  | IndexError
  | MultipleResultsFound
  | StatementError.

(** How a computation ends: with a value, with [abort(status)], with an
    exception, or not within the iterations it was given ([Running]). *)
Inductive result (A : Type) : Type :=
  | Return (a : A)
  | Abort (status : Z)
  | Raise (e : exception)
  | Running.

Arguments Return {A} a.
Arguments Abort {A} status.
Arguments Raise {A} e.
Arguments Running {A}.

(** [v == ''] *)
Definition py_eq_empty_str (v : json) : bool :=
  match v with
  | JStr s => bool_decide (s = "")
  | _ => false
  end.

(** [v == z] for an integer [z]; Python's [True] and [False] equal 1 and 0. *)
Definition py_eq_int (v : json) (z : Z) : bool :=
  match v with
  | JNum n => n =? z
  | JBool b => (if b then 1 else 0) =? z
  | _ => false
  end.

(** [v is None] *)
Definition py_is_None (v : json) : bool :=
  match v with
  | JNull => true
  | _ => false
  end.

(** [v.get(k, default)]: only a dict has the method. *)
Definition py_get (v : json) (k : string) (dflt : json) : result json :=
  match v with
  | JObj kv => Return (default dflt (kv !! k))
  | _ => Raise AttributeError
  end.

(** [v[k]] for a string key [k]. *)
Definition py_getitem (v : json) (k : string) : result json :=
  match v with
  | JObj kv =>
      match kv !! k with
      | Some x => Return x
      | None => Raise KeyError
      end
  | _ => Raise TypeError
  end.

(** [z in v] for an integer [z].  A list is searched with [==]; the keys of
    a parsed object are strings, none of which equals an integer; a string
    refuses a left operand that is no string; the rest is not iterable. *)
Definition py_in (z : Z) (v : json) : result bool :=
  match v with
  | JArr xs => Return (existsb (fun x => py_eq_int x z) xs)
  | JObj _ => Return false
  | _ => Raise TypeError
  end.

(** [l[start:stop]] *)
Definition py_slice {A : Type} (l : list A) (start stop : Z) : list A :=
  let n := Z.of_nat (length l) in
  let clamp i := if i <? 0 then Z.max (i + n) 0 else Z.min i n in
  let lo := clamp start in
  let hi := clamp stop in
  take (Z.to_nat (hi - lo)) (drop (Z.to_nat lo) l).

(** [l[i]] *)
Definition py_index {A : Type} (l : list A) (i : Z) : result A :=
  let n := Z.of_nat (length l) in
  let j := if i <? 0 then i + n else i in
  if (0 <=? j) && (j <? n)
  then match l !! Z.to_nat j with
       | Some x => Return x
       | None => Raise IndexError
       end
  else Raise IndexError.

(** ** The catalogue *)

(** Modelled from the spec: [models.py] is not among the sources.  A
    question is the record {id, text, answer, category, difficulty} of the
    data model, and [format] lists its fields for [jsonify]. *)
Module Question.
Record t : Type := Build {
  id : Z;
  question : string;
  answer : string;
  category : Z;
  difficulty : Z
}.

Definition format (q : t) : json :=
  JObj (<["id" := JNum (id q)]>
       (<["question" := JStr (question q)]>
       (<["answer" := JStr (answer q)]>
       (<["category" := JNum (category q)]>
       (<["difficulty" := JNum (difficulty q)]> ∅))))).
End Question.

(** Modelled from the spec: a category is the record {id, label}; the
    views read the label as [category.type]. *)
Module Category.
Record t : Type := Build {
  id : Z;
  type : string
}.
End Category.

(** The statements a view sends to the store. *)
Inductive statement : Type :=
  | SelectCategories
  | SelectCategoryById (id : Z)
  | SelectQuestions
  | SelectQuestionsByCategory (key : json)
  | SelectQuestionsLike (pattern : string)
  | GetQuestion (id : Z)
  | InsertQuestion (q : Question.t)
  | DeleteQuestion (id : Z).

(** What a view runs against: the two tables in query order, the next
    primary key of the questions, the statements sent so far (oldest
    first), and the state of the [random] module, a stream of raw draws of
    which [drawn] have been consumed. *)
Record world : Type := World {
  questions : list Question.t;
  categories : list Category.t;
  serial : Z;
  issued : list statement;
  entropy : nat → nat;
  drawn : nat
}.

(** What the repository leaves to the Python runtime and to the database
    engine: reading an integer off a query-string value, rendering a value
    inside an f-string, the ILIKE operator, and how the driver binds a JSON
    value against a text or an integer column ([None]: the statement is
    refused).  Integers and strings bind as themselves. *)
Class Platform : Type := {
  py_int : string → option Z;
  py_str : json → string;
  py_str_JStr : ∀ s, py_str (JStr s) = s;
  db_ilike : string → string → bool;
  db_text : json → option string;
  db_text_JStr : ∀ s, db_text (JStr s) = Some s;
  db_int : json → option Z;
  db_int_JNum : ∀ n, db_int (JNum n) = Some n;
  db_int_eq : json → option (Z → bool);
  db_int_eq_JNum : ∀ n, db_int_eq (JNum n) = Some (Z.eqb n)
}.

(** ** Views as computations over the world *)

Definition view (A : Type) : Type := world → result A * world.

#[global] Instance view_ret : MRet view := λ A a w, (Return a, w).

#[global] Instance view_bind : MBind view := λ A B f m w,
  match m w with
  | (Return a, w') => f a w'
  | (Abort status, w') => (Abort status, w')
  | (Raise e, w') => (Raise e, w')
  | (Running, w') => (Running, w')
  end.

Definition lift {A : Type} (r : result A) : view A := λ w, (r, w).

(** [abort(status)] *)
Definition abort {A : Type} (status : Z) : view A := lift (Abort status).

Definition raise {A : Type} (e : exception) : view A := lift (Raise e).

(** [try: body / except IndexError: handler] *)
Definition except_IndexError {A : Type} (body handler : view A) : view A :=
  λ w,
  match body w with
  | (Raise IndexError, w') => handler w'
  | rw => rw
  end.

(** [try: body / except Exception: handler]; what [abort] raises is an
    [Exception] too. *)
Definition except_Exception {A : Type} (body handler : view A) : view A :=
  λ w,
  match body w with
  | (Raise _, w') => handler w'
  | (Abort _, w') => handler w'
  | rw => rw
  end.

(** Reading the world. *)
Definition gets {A : Type} (f : world → A) : view A :=
  λ w, (Return (f w), w).

Definition send (s : statement) : view unit :=
  λ w, (Return (),
        World (questions w) (categories w) (serial w) (issued w ++ [s])
              (entropy w) (drawn w)).

Definition set_questions (qs : list Question.t) (next : Z) : view unit :=
  λ w, (Return (),
        World qs (categories w) next (issued w) (entropy w) (drawn w)).

(** [random.randint(a, b)]: an integer of [a..b], and [ValueError] on an
    empty range. *)
Definition randint (a b : Z) : view Z :=
  λ w,
  if b <? a then (Raise ValueError, w)
  else (Return (a + Z.of_nat (entropy w (drawn w)) mod (b - a + 1)),
        World (questions w) (categories w) (serial w) (issued w)
              (entropy w) (S (drawn w))).

(** Names a view can read: the module's, those of [create_app], the
    builtins the file uses, and the view's own locals. *)
Definition module_names : list string :=
  ["os"; "Flask"; "request"; "abort"; "jsonify"; "SQLAlchemy"; "CORS";
   "random"; "setup_db"; "Question"; "Category"; "QUESTIONS_PER_PAGE";
   "paginate_questions"; "create_app"].

Definition create_app_names : list string :=
  ["test_config"; "app"; "after_request"; "get_all_categories";
   "get_questions"; "delete_question"; "create_question";
   "search_questions"; "get_questions_by_category";
   "get_random_quiz_question"; "bad_request"; "not_found";
   "unprocesable_entity"].

Definition builtin_names : list string :=
  ["len"; "int"; "Exception"; "IndexError"].

(** Reading the name [x] inside a view with the given locals. *)
Definition load_name (locals : list string) (x : string) : view unit :=
  if bool_decide (x ∈ locals ++ create_app_names ++ module_names
                       ++ builtin_names)
  then mret ()
  else raise NameError.

(** ** Requests *)

Inductive http_method : Type := GET | POST | PUT | PATCH | DELETE.

(** A request: its method, the segments of its path, the query string as
    [request.args] and the parsed body as [request.get_json()] returns it
    ([JNull] when there is none). *)
Record request : Type := Request {
  method : http_method;
  path : list string;
  args : gmap string string;
  get_json : json
}.

(** A view's answer: the [jsonify]'d body and the status code. *)
Definition response : Type := json * Z.

Definition jsonify (d : gmap string json) : json := JObj d.

Section Views.
Context `{Platform}.

(** [args.get(key, default, type=int)]: the default when the key is
    missing and when [int] refuses its value. *)
Definition args_get_int (a : gmap string string) (key : string) (dflt : Z)
  : Z :=
  match a !! key with
  | Some s => default dflt (py_int s)
  | None => dflt
  end.

(** *** The store's query primitives

    Modelled from the spec: [models.py] and the database are not among the
    sources.  Each primitive is the query the view spells out, over the
    tables of the world. *)

(** [Category.query.all()] *)
Definition Category_query_all : view (list Category.t) :=
  send SelectCategories;; gets categories.

(** [Category.query.filter_by(id=id).one_or_none()] *)
Definition Category_query_filter_by_id_one_or_none (id : Z)
  : view (option Category.t) :=
  send (SelectCategoryById id);;
  rows ← gets (λ w, List.filter (λ c, Category.id c =? id) (categories w));
  match rows with
  | [] => mret None
  | [c] => mret (Some c)
  | _ => raise MultipleResultsFound
  end.

(** [Question.query.all()] *)
Definition Question_query_all : view (list Question.t) :=
  send SelectQuestions;; gets questions.

(** [Question.query.filter_by(category=key).all()] *)
Definition Question_query_filter_by_category (key : json)
  : view (list Question.t) :=
  match db_int_eq key with
  | Some p =>
      send (SelectQuestionsByCategory key);;
      gets (λ w, List.filter (λ q, p (Question.category q)) (questions w))
  | None => raise StatementError
  end.

(** [Question.query.filter(Question.question.ilike(pattern)).all()] *)
Definition Question_query_filter_ilike (pattern : string)
  : view (list Question.t) :=
  send (SelectQuestionsLike pattern);;
  gets (λ w, List.filter (λ q, db_ilike pattern (Question.question q))
                         (questions w)).

(** [Question.query.get(id)] *)
Definition Question_query_get (id : Z) : view (option Question.t) :=
  send (GetQuestion id);;
  gets (λ w, List.find (λ q, Question.id q =? id) (questions w)).

(** [question.delete()] on what [Question.query.get] returned: [None] has
    no such attribute. *)
Definition Question_delete (question : option Question.t) : view unit :=
  match question with
  | None => raise AttributeError
  | Some q =>
      send (DeleteQuestion (Question.id q));;
      rows ← gets questions;
      next ← gets serial;
      set_questions
        (List.filter (λ q', negb (Question.id q' =? Question.id q)) rows)
        next
  end.

(** [Question(question=.., answer=.., difficulty=.., category=..).insert()] *)
Definition Question_insert (question answer difficulty category : json)
  : view unit :=
  match db_text question, db_text answer, db_int difficulty,
        db_int category with
  | Some q, Some a, Some d, Some c =>
      rows ← gets questions;
      next ← gets serial;
      let row := Question.Build next q a c d in
      send (InsertQuestion row);;
      set_questions (rows ++ [row]) (next + 1)
  | _, _, _, _ => raise StatementError
  end.

(** *** [paginate_questions] *)

Definition QUESTIONS_PER_PAGE : Z := 10.

Definition paginate_questions (req : request) (selection : list Question.t)
  : list json :=
  let page := args_get_int (args req) "page" 1 in
  let start := (page - 1) * QUESTIONS_PER_PAGE in
  let end_ := start + QUESTIONS_PER_PAGE in
  let questions := map Question.format selection in
  let current_questions := py_slice questions start end_ in
  current_questions.

(** *** The views of [create_app] *)

(** [{category.id: category.type for category in categories}], with the
    string keys [jsonify] writes. *)
Definition categories_dict (cs : list Category.t) : gmap string json :=
  foldl (λ d c, <[pretty (Category.id c) := JStr (Category.type c)]> d) ∅ cs.

Definition get_all_categories : view response :=
  except_Exception
    (categories ← Category_query_all;
     mret (jsonify (<["success" := JBool true]>
                   (<["categories" := JObj (categories_dict categories)]> ∅)),
           200))
    (abort 500).

Definition get_questions (req : request) : view response :=
  selection ← Question_query_all;
  let total_questions := Z.of_nat (length selection) in
  categories ← Category_query_all;
  let current_questions := paginate_questions req selection in
  if Z.of_nat (length current_questions) =? 0 then abort 404
  else
    mret (jsonify (<["success" := JBool true]>
                  (<["questions" := JArr current_questions]>
                  (<["total_questions" := JNum total_questions]>
                  (<["categories" := JObj (categories_dict categories)]> ∅)))),
          200).

Definition delete_question (id : Z) : view response :=
  except_IndexError
    (question ← Question_query_get id;
     Question_delete question;;
     mret (jsonify (<["success" := JBool true]>
                   (<["message" := JStr "Question successfully deleted!"]> ∅)),
           200))
    (abort 422).

Definition create_question (req : request) : view response :=
  let data := get_json req in
  question ← lift (py_get data "question" (JStr ""));
  answer ← lift (py_get data "answer" (JStr ""));
  difficulty ← lift (py_get data "difficulty" (JStr ""));
  category ← lift (py_get data "category" (JStr ""));
  if py_eq_empty_str question || py_eq_empty_str answer
     || py_eq_empty_str difficulty || py_eq_empty_str category
  then abort 422
  else
    except_IndexError
      (Question_insert question answer difficulty category;;
       mret (jsonify (<["success" := JBool true]>
                     (<["message" := JStr "Question successfully created!"]> ∅)),
             201))
      (abort 422).

Definition search_questions_locals : list string :=
  ["data"; "search_term"; "selection"; "paginated"].

(** The text of the search view, read in a scope with the given locals.
    The view reads [reques] before anything else and [questions] after the
    query; both stand where [request] and [selection] are meant, and the
    text after each is kept with those. *)
Definition search_questions_with (locals : list string) (req : request)
  : view response :=
  load_name locals "reques";;
  let data := get_json req in
  search_term ← lift (py_get data "searchTerm" (JStr ""));
  if py_eq_empty_str search_term then abort 422
  else
    except_IndexError
      (selection ← Question_query_filter_ilike
                      ("%" +:+ py_str search_term +:+ "%");
       load_name locals "questions";;
       if Z.of_nat (length selection) =? 0 then abort 404
       else
         let paginated := paginate_questions req selection in
         all ← Question_query_all;
         mret (jsonify (<["success" := JBool true]>
                       (<["questions" := JArr paginated]>
                       (<["total_questions" := JNum (Z.of_nat (length all))]>
                          ∅))),
               200))
      (abort 404).

(** The search view: the names it assigns are its only locals. *)
Definition search_questions (req : request) : view response :=
  search_questions_with search_questions_locals req.

Definition get_questions_by_category (req : request) (id : Z)
  : view response :=
  category ← Category_query_filter_by_id_one_or_none id;
  match category with
  | None => abort 400
  | Some category =>
      selection ← Question_query_filter_by_category (JNum id);
      let paginated := paginate_questions req selection in
      all ← Question_query_all;
      mret (jsonify (<["success" := JBool true]>
                    (<["questions" := JArr paginated]>
                    (<["total_questions" := JNum (Z.of_nat (length all))]>
                    (<["current_category" := JStr (Category.type category)]>
                       ∅)))),
            200)
  end.

(** [get_random_question()], the closure over [questions]. *)
Definition get_random_question (questions : list Question.t)
  : view Question.t :=
  i ← randint 0 (Z.of_nat (length questions) - 1);
  lift (py_index questions i).

(** The [while found] loop, run for at most [fuel] tests of [found]. *)
Fixpoint while_found (fuel : nat) (questions : list Question.t)
    (previous_questions : json) (next_question : Question.t)
  : view Question.t :=
  match fuel with
  | O => lift Running
  | S fuel' =>
      seen ← lift (py_in (Question.id next_question) previous_questions);
      if seen : bool
      then
        next_question ← get_random_question questions;
        while_found fuel' questions previous_questions next_question
      else mret next_question
  end.

Definition get_random_quiz_question (fuel : nat) (req : request)
  : view response :=
  let data := get_json req in
  previous_questions ← lift (py_get data "previous_questions" JNull);
  quiz_category ← lift (py_get data "quiz_category" JNull);
  if py_is_None quiz_category || py_is_None previous_questions
  then abort 400
  else
    scope ← lift (py_getitem quiz_category "id");
    questions ← (if py_eq_int scope 0 then Question_query_all
                 else Question_query_filter_by_category scope);
    next_question ← get_random_question questions;
    next_question ← while_found fuel questions previous_questions
                                next_question;
    mret (jsonify (<["success" := JBool true]>
                  (<["question" := Question.format next_question]> ∅)),
          200).

End Views.

(** ** The URL map and the error handlers *)

(** A segment of a rule: literal text or the converter [<int:id>]. *)
Inductive segment : Type :=
  | Lit (s : string)
  | IntArg.

Module endpoint.
Inductive t : Type :=
  | get_all_categories
  | get_questions
  | delete_question
  | create_question
  | search_questions
  | get_questions_by_category
  | get_random_quiz_question.
End endpoint.

Record rule : Type := Rule {
  rule_path : list segment;
  rule_methods : list http_method;
  rule_endpoint : endpoint.t
}.

(** The [@app.route] decorators of [create_app], in the order they run.
    A route without [methods] answers GET.  The HEAD and OPTIONS answers
    Flask adds to every route and its route for static files are outside
    the model, as are the headers [after_request] sets. *)
Definition url_map : list rule :=
  [ Rule [Lit "categories"] [GET] endpoint.get_all_categories;
    Rule [Lit "questions"] [GET] endpoint.get_questions;
    Rule [Lit "questions"; IntArg] [DELETE] endpoint.delete_question;
    Rule [Lit "questions"] [POST] endpoint.create_question;
    Rule [Lit "questions"] [POST] endpoint.search_questions;
    Rule [Lit "categories"; IntArg; Lit "questions"] [GET]
         endpoint.get_questions_by_category;
    Rule [Lit "quizzes"] [POST] endpoint.get_random_quiz_question ].

Definition digit_of (c : Ascii.ascii) : option Z :=
  let n := Z.of_N (Ascii.N_of_ascii c) in
  if (48 <=? n) && (n <=? 57) then Some (n - 48) else None.

Fixpoint digits (s : string) (acc : Z) : option Z :=
  match s with
  | EmptyString => Some acc
  | String c s' => d ← digit_of c; digits s' (10 * acc + d)
  end.

(** The [int] converter: one or more digits. *)
Definition int_converter (s : string) : option Z :=
  match s with
  | EmptyString => None
  | _ => digits s 0
  end.

(** The values a rule's converters read off a path, when it matches. *)
Fixpoint match_path (pattern : list segment) (p : list string)
  : option (list Z) :=
  match pattern, p with
  | [], [] => Some []
  | Lit s :: pattern', x :: p' =>
      if bool_decide (s = x) then match_path pattern' p' else None
  | IntArg :: pattern', x :: p' =>
      v ← int_converter x; vs ← match_path pattern' p'; Some (v :: vs)
  | _, _ => None
  end.

#[global] Instance http_method_eq_dec : EqDecision http_method.
Proof. solve_decision. Defined.

Definition match_rule (req : request) (r : rule)
  : option (endpoint.t * list Z) :=
  vs ← match_path (rule_path r) (path req);
  if bool_decide (method req ∈ rule_methods r)
  then Some (rule_endpoint r, vs)
  else None.

(** The first rule that matches path and method, in the order of the map. *)
Fixpoint first_match (req : request) (rules : list rule)
  : option (endpoint.t * list Z) :=
  match rules with
  | [] => None
  | r :: rules' =>
      match match_rule req r with
      | Some m => Some m
      | None => first_match req rules'
      end
  end.

(** What the server sends back: a JSON body or, where no handler of the
    application wrote one, the server's own error page; [Unanswered] while
    the view is still running. *)
Inductive answer : Type :=
  | Json (body : json) (status : Z)
  | ErrorPage (status : Z)
  | Unanswered.

Definition error_body (code : Z) (message : string) : json :=
  jsonify (<["success" := JBool false]>
          (<["error" := JNum code]>
          (<["message" := JStr message]> ∅))).

(** [bad_request], [not_found] and [unprocesable_entity]; any other status
    and any exception that leaves a view has no handler of its own. *)
Definition handle_result (r : result response) : answer :=
  match r with
  | Return (body, status) => Json body status
  | Abort 400 => Json (error_body 400 "Bad request!") 400
  | Abort 404 => Json (error_body 404 "Resource not found!") 404
  | Abort 422 => Json (error_body 422 "Unprocessable entity!") 422
  | Abort status => ErrorPage status
  | Raise _ => ErrorPage 500
  | Running => Unanswered
  end.

Section Dispatch.
Context `{Platform}.

Definition view_functions (fuel : nat) (e : endpoint.t) (values : list Z)
    (req : request) : view response :=
  match e, values with
  | endpoint.get_all_categories, [] => get_all_categories
  | endpoint.get_questions, [] => get_questions req
  | endpoint.delete_question, [id] => delete_question id
  | endpoint.create_question, [] => create_question req
  | endpoint.search_questions, [] => search_questions req
  | endpoint.get_questions_by_category, [id] =>
      get_questions_by_category req id
  | endpoint.get_random_quiz_question, [] =>
      get_random_quiz_question fuel req
  | _, _ => raise TypeError
  end.

(** Routing: the first matching rule names the view; a path that only
    rules of other methods match is answered 405, and no match at all 404. *)
Definition dispatch_request (fuel : nat) (req : request) : view response :=
  match first_match req url_map with
  | Some (e, values) => view_functions fuel e values req
  | None =>
      if existsb (λ r, bool_decide (is_Some (match_path (rule_path r)
                                                        (path req))))
                 url_map
      then abort 405
      else abort 404
  end.

Definition full_dispatch_request (fuel : nat) (req : request) (w : world)
  : answer * world :=
  let (r, w') := dispatch_request fuel req w in
  (handle_result r, w').

End Dispatch.

(** ** A platform to run the views on

    Decimal integers with an optional sign, strings that render and bind as
    themselves, integers that do so in decimal, and patterns [%text%]
    matched as substrings after ASCII case folding.  It stands in for the
    runtime on the examples only: Python's [int] also reads blanks and
    underscores, and ILIKE reads [_] and [%] inside the text as wildcards.
    No statement below depends on it. *)

Definition signed_int (s : string) : option Z :=
  match s with
  | String "-"%char s' => Z.opp <$> int_converter s'
  | String "+"%char s' => int_converter s'
  | _ => int_converter s
  end.

Definition lower (c : Ascii.ascii) : Ascii.ascii :=
  let n := Ascii.N_of_ascii c in
  if ((65 <=? n) && (n <=? 90))%N then Ascii.ascii_of_N (n + 32) else c.

Fixpoint lowercase (s : string) : string :=
  match s with
  | EmptyString => EmptyString
  | String c s' => String (lower c) (lowercase s')
  end.

Fixpoint contains (needle hay : string) : bool :=
  String.prefix needle hay ||
  match hay with
  | EmptyString => false
  | String _ hay' => contains needle hay'
  end.

Definition strip_percent (pattern : string) : string :=
  match pattern with
  | String "%"%char rest =>
      String.substring 0%nat (String.length rest - 1)%nat rest
  | _ => pattern
  end.

Definition plain_str (v : json) : string :=
  match v with
  | JNull => "None"
  | JBool true => "True"
  | JBool false => "False"
  | JNum n => pretty n
  | JStr s => s
  | JArr _ => "[...]"
  | JObj _ => "{...}"
  end.

#[export] Instance plain_platform : Platform := {|
  py_int := signed_int;
  py_str := plain_str;
  py_str_JStr := λ _, eq_refl;
  db_ilike pattern text :=
    contains (lowercase (strip_percent pattern)) (lowercase text);
  db_text v := match v with
               | JStr s => Some s
               | JNum n => Some (pretty n)
               | _ => None
               end;
  db_text_JStr := λ _, eq_refl;
  db_int v := match v with
              | JNum n => Some n
              | JStr s => signed_int s
              | _ => None
              end;
  db_int_JNum := λ _, eq_refl;
  db_int_eq v := match v with
                 | JNum n => Some (Z.eqb n)
                 | JStr s => Z.eqb <$> signed_int s
                 | JNull => Some (λ _, false)
                 | _ => None
                 end;
  db_int_eq_JNum := λ _, eq_refl
|}.

(** ** Worlds and bodies to state the results with *)

(** The world after more statements were sent. *)
Definition logged (w : world) (ss : list statement) : world :=
  World (questions w) (categories w) (serial w) (issued w ++ ss)
        (entropy w) (drawn w).

(** A field of a JSON object. *)
Definition field (v : json) (k : string) : option json :=
  match v with
  | JObj m => m !! k
  | _ => None
  end.

Ltac run_view :=
  unfold mbind, view_bind, mret, view_ret, lift, abort, raise, send, gets,
    set_questions, logged; simpl.

(** The candidate pool in the spec's words: every question when the scope
    is 0, and else the questions of that category. *)
Definition candidate_pool (c : Z) (w : world) : list Question.t :=
  if c =? 0 then questions w
  else List.filter (λ q, c =? Question.category q) (questions w).

(** The statement that fetches the pool. *)
Definition pool_statement (c : Z) : statement :=
  if c =? 0 then SelectQuestions else SelectQuestionsByCategory (JNum c).

(** The world after one more draw. *)
Definition drew (w : world) : world :=
  World (questions w) (categories w) (serial w) (issued w) (entropy w)
        (S (drawn w)).

(** ** A catalogue and requests to run the views on *)

Definition sample_question (i : Z) : Question.t :=
  Question.Build i "Who discovered penicillin?" "Alexander Fleming" 1 3.

Definition sample_selection : list Question.t :=
  sample_question <$> seqZ 1 25.

Definition page_request (page : string) : request :=
  Request GET ["questions"] {["page" := page]} JNull.

(** Questions 5, 9 and 12 in category 1 and question 20 in category 2; the
    draws of [random] count up from 0. *)
Definition sample_world : world :=
  World [ sample_question 5; sample_question 9; sample_question 12;
          Question.Build 20 "Who painted La Giaconda?" "Leonardo da Vinci"
                         2 2 ]
        [ Category.Build 1 "Science"; Category.Build 2 "Art" ]
        24 [] (λ n, n) 0.

Definition quiz_body (previous : list Z) (scope : Z) : gmap string json :=
  <["previous_questions" := JArr (JNum <$> previous)]>
  (<["quiz_category" := JObj (<["type" := JStr "Science"]>
                              (<["id" := JNum scope]> ∅))]> ∅).

Definition quiz_request (previous : list Z) (scope : Z) : request :=
  Request POST ["quizzes"] ∅ (JObj (quiz_body previous scope)).

Definition search_body (term : string) : gmap string json :=
  {["searchTerm" := JStr term]}.

Definition search_request (term : string) : request :=
  Request POST ["questions"] ∅ (JObj (search_body term)).

Definition category_request : request :=
  Request GET ["categories"; "1"; "questions"] ∅ JNull.

(** ** Stores and draws to state further results with *)

(** The store of a world: its two tables and the next key. *)
Definition store (w : world)
  : list Question.t * list Category.t * Z :=
  (questions w, categories w, serial w).

(** A computation that leaves a part [f] of the world as it finds it. *)
Definition keeps {A B : Type} (f : world → B) (m : view A) : Prop :=
  ∀ w, f (m w).2 = f w.

(** The [i]-th question the quiz view draws from a pool, counted from the
    draws the world has consumed. *)
Definition nth_draw (pool : list Question.t) (w : world) (i : nat)
  : option Question.t :=
  pool !! (entropy w (drawn w + i) `mod` length pool)%nat.

(** The status codes the views abort with. *)
Definition abort_codes : list Z := [400; 404; 422; 500].

(** A body that reports success, under 200 or 201. *)
Definition ok_response (r : response) : Prop :=
  field r.1 "success" = Some (JBool true) ∧ (r.2 = 200 ∨ r.2 = 201).

(** How a computation may end: with a value that satisfies [P], with one
    of the abort codes, with an exception, and still running only where
    [may_run] holds. *)
Definition ends {A : Type} (P : A → Prop) (may_run : Prop) (m : view A)
  : Prop :=
  ∀ w, match (m w).1 with
       | Return a => P a
       | Abort s => s ∈ abort_codes
       | Raise _ => True
       | Running => may_run
       end.

(** The body the test suite posts to create a question. *)
Definition new_question : gmap string json :=
  <["question" :=
      JStr "What is the name of the developer that created this game?"]>
  (<["answer" := JStr "Chad Hendon"]>
  (<["difficulty" := JNum 1]>
  (<["category" := JStr "4"]> ∅))).

Definition create_request : request :=
  Request POST ["questions"] ∅ (JObj new_question).

Definition new_row : Question.t :=
  Question.Build 24
    "What is the name of the developer that created this game?"
    "Chad Hendon" 4 1.

(** The same body with an empty search term beside the four fields. *)
Definition new_question_with_term : gmap string json :=
  <["searchTerm" := JStr ""]> new_question.

(** Requests whose body is JSON [null]. *)
Definition null_quiz_request : request :=
  Request POST ["quizzes"] ∅ JNull.

Definition null_search_request : request :=
  Request POST ["questions"] ∅ JNull.


(** The sample catalogue without its questions. *)
Definition empty_world : world :=
  World [] (categories sample_world) 1 [] (λ n, n) 0.

(** * Properties *)

(** ** Pagination *)

Section Pagination.
Context `{Platform}.

Lemma take_min_length {A : Type} (l : list A) (k n : nat) :
  k = Nat.min n (length l) → take k l = take n l.
Proof.
  intros ->.
  destruct (Nat.le_ge_cases n (length l)) as [Hle | Hge].
  - by rewrite Nat.min_l.
  - rewrite Nat.min_r by done. by rewrite !take_ge.
Qed.

(** A slice that starts at or after 0 and is ten long is ten elements
    taken after the start, as many as the list has there. *)
Lemma py_slice_window {A : Type} (l : list A) (start : Z) :
  0 ≤ start →
  py_slice l start (start + 10) = take 10 (drop (Z.to_nat start) l).
Proof.
  intros Hstart. unfold py_slice.
  assert ((start <? 0) = false) as -> by lia.
  assert ((start + 10 <? 0) = false) as -> by lia.
  destruct (Z.le_gt_cases (Z.of_nat (length l)) start) as [Hout | Hin].
  - rewrite Z.min_r by lia. rewrite Z.min_r by lia.
    rewrite Nat2Z.id, drop_all.
    rewrite drop_ge by lia. by rewrite !take_nil.
  - rewrite (Z.min_l start) by lia.
    apply take_min_length. rewrite length_drop. lia.
Qed.

Lemma paginate_questions_page (req : request) (selection : list Question.t)
    (p : Z) :
  args_get_int (args req) "page" 1 = p →
  paginate_questions req selection
  = py_slice (map Question.format selection) ((p - 1) * 10)
             ((p - 1) * 10 + 10).
Proof. intros <-. reflexivity. Qed.

(** C3: for a page number p >= 1, supplied in the query string or 1 by
    default, [paginate_questions] returns the slice of the formatted
    selection from (p-1)*10 to (p-1)*10+10, cut silently to what the
    selection has there: ten elements taken after dropping (p-1)*10.  The
    empty selection gives the empty page; of 25 questions page 3 is the
    elements 20..24 and page 4 is empty. *)
Theorem paginate_questions_slice (req : request)
    (selection : list Question.t) (p : Z) :
  1 ≤ p →
  (args req !! "page" = None ∧ p = 1)
  ∨ (∃ s, args req !! "page" = Some s ∧ py_int s = Some p) →
  let items := map Question.format selection in
  let start := (p - 1) * 10 in
  let page := paginate_questions req selection in
  page = py_slice items start (start + 10)
  ∧ page = take 10 (drop (Z.to_nat start) items)
  ∧ (selection = [] → page = [])
  ∧ (length selection = 25%nat → p = 3 →
     page = drop 20 items ∧ length page = 5%nat)
  ∧ (length selection = 25%nat → p = 4 → page = []).
Proof.
  intros Hp Hpage items start page.
  assert (args_get_int (args req) "page" 1 = p) as Harg.
  { unfold args_get_int.
    destruct Hpage as [[-> ->] | (s & -> & ->)]; reflexivity. }
  assert (page = py_slice items start (start + 10)) as Hslice
    by exact (paginate_questions_page req selection p Harg).
  assert (page = take 10 (drop (Z.to_nat start) items)) as Hwin.
  { rewrite Hslice. apply py_slice_window. unfold start. lia. }
  assert (length items = length selection) as Hlen
    by apply length_map.
  split; [done |]. split; [done |]. split; [| split].
  - intros ->. rewrite Hwin. unfold items. simpl.
    by rewrite drop_nil, take_nil.
  - intros H25 ->. rewrite Hwin. unfold start. simpl. split.
    + apply take_ge. rewrite length_drop. lia.
    + rewrite take_ge by (rewrite length_drop; lia).
      rewrite length_drop. lia.
  - intros H25 ->. rewrite Hwin. unfold start. simpl.
    rewrite drop_ge by lia. done.
Qed.

End Pagination.

Lemma filter_category_absent (id : Z) (cs : list Category.t) :
  id ∉ Category.id <$> cs →
  List.filter (λ c, Category.id c =? id) cs = [].
Proof.
  induction cs as [| c cs IH]; [done |].
  rewrite fmap_cons, not_elem_of_cons. intros [Hne Hnot]. simpl.
  destruct (Z.eqb_spec (Category.id c) id) as [Heq | _]; [congruence |].
  by apply IH.
Qed.

Lemma filter_category_present (id : Z) (c : Category.t)
    (cs : list Category.t) :
  NoDup (Category.id <$> cs) → c ∈ cs → Category.id c = id →
  List.filter (λ c, Category.id c =? id) cs = [c].
Proof.
  induction cs as [| c' cs IH]; intros Hnd Hin Hid.
  - by apply elem_of_nil in Hin.
  - rewrite fmap_cons in Hnd. apply NoDup_cons in Hnd as [Hfresh Hnd].
    simpl. apply elem_of_cons in Hin as [<- | Hin].
    + rewrite Hid, Z.eqb_refl. f_equal.
      apply filter_category_absent. by rewrite <- Hid.
    + destruct (Z.eqb_spec (Category.id c') id) as [Heq | _].
      * exfalso. apply Hfresh. rewrite Heq, <- Hid.
        by apply list_elem_of_fmap_2.
      * by apply IH.
Qed.

Section Categories.
Context `{Platform}.

(** With a category of that id in the table the view answers with its
    label, the page of its questions and the size of the whole table. *)
Lemma get_questions_by_category_found (req : request) (id : Z)
    (c : Category.t) (w : world) :
  NoDup (Category.id <$> categories w) →
  c ∈ categories w → Category.id c = id →
  get_questions_by_category req id w
  = (Return
       (jsonify
          (<["success" := JBool true]>
          (<["questions" :=
               JArr (paginate_questions req
                       (List.filter (λ q, id =? Question.category q)
                                    (questions w)))]>
          (<["total_questions" := JNum (Z.of_nat (length (questions w)))]>
          (<["current_category" := JStr (Category.type c)]> ∅)))),
        200),
     logged w [SelectCategoryById id; SelectQuestionsByCategory (JNum id);
               SelectQuestions]).
Proof.
  intros Hkey Hin Hid.
  unfold get_questions_by_category,
    Category_query_filter_by_id_one_or_none,
    Question_query_filter_by_category, Question_query_all.
  run_view. rewrite (filter_category_present id c) by done.
  rewrite db_int_eq_JNum. run_view.
  by rewrite <- !app_assoc.
Qed.

(** C7: when no category of the store has the id, the questions-by-category
    view aborts with 400, answered by the bad-request handler, having sent
    the category lookup and no query for questions; when a category has the
    id, the view answers 200 with that category's label as the current
    category.  Category ids are the primary key of their table. *)
Theorem get_questions_by_category_resolves (req : request) (id : Z)
    (w : world) :
  NoDup (Category.id <$> categories w) →
  (id ∉ Category.id <$> categories w →
   get_questions_by_category req id w
   = (Abort 400, logged w [SelectCategoryById id])
   ∧ handle_result (Abort 400)
     = Json (error_body 400 "Bad request!") 400)
  ∧ (∀ c, c ∈ categories w → Category.id c = id →
     ∃ body,
       get_questions_by_category req id w
       = (Return (body, 200),
          logged w [SelectCategoryById id;
                    SelectQuestionsByCategory (JNum id);
                    SelectQuestions])
       ∧ field body "current_category" = Some (JStr (Category.type c))).
Proof.
  intros Hkey. split.
  - intros Habsent. split; [| reflexivity].
    unfold get_questions_by_category,
      Category_query_filter_by_id_one_or_none.
    run_view. by rewrite filter_category_absent.
  - intros c Hin Hid. eexists. split.
    + by apply (get_questions_by_category_found req id c w).
    + reflexivity.
Qed.

End Categories.

Section Handlers.
Context `{Platform}.

Lemma find_question_absent (id : Z) (qs : list Question.t) :
  id ∉ Question.id <$> qs →
  List.find (λ q, Question.id q =? id) qs = None.
Proof.
  induction qs as [| q qs IH]; [done |].
  rewrite fmap_cons, not_elem_of_cons. intros [Hne Hnot]. simpl.
  destruct (Z.eqb_spec (Question.id q) id) as [Heq | _]; [congruence |].
  by apply IH.
Qed.

Lemma find_question_present (id : Z) (qs : list Question.t) :
  id ∈ Question.id <$> qs →
  ∃ q, List.find (λ q, Question.id q =? id) qs = Some q
       ∧ Question.id q = id.
Proof.
  induction qs as [| q qs IH]; [by intros ?%elem_of_nil |].
  rewrite fmap_cons. simpl.
  destruct (Z.eqb_spec (Question.id q) id) as [Heq | Hne].
  - intros _. by exists q.
  - intros [Heq | Hin]%elem_of_cons; [congruence | by apply IH].
Qed.

(** The present half of deletion: the row of that id leaves the table and
    the view confirms with 200. *)
Lemma delete_question_present (id : Z) (w : world) :
  id ∈ Question.id <$> questions w →
  ∃ body w',
    delete_question id w = (Return (body, 200), w')
    ∧ field body "success" = Some (JBool true)
    ∧ questions w'
      = List.filter (λ q, negb (Question.id q =? id)) (questions w)
    ∧ id ∉ Question.id <$> questions w'.
Proof.
  intros Hin. destruct (find_question_present id _ Hin) as (q & Hq & Hid).
  unfold delete_question, except_IndexError, Question_query_get,
    Question_delete.
  run_view. rewrite Hq. run_view. rewrite Hid.
  do 2 eexists. split; [reflexivity |]. split; [reflexivity |].
  split; [reflexivity |]. simpl.
  rewrite list_elem_of_fmap. intros (q' & Hq' & Hin').
  apply list_elem_of_In, filter_In in Hin' as [_ Hkeep].
  rewrite <- Hq', Z.eqb_refl in Hkeep. done.
Qed.

(** C4 (what the code does): deleting an id that no question has raises
    [AttributeError] out of the view, whose handler is for [IndexError];
    the request is answered with the server's 500 page, not with the
    not-found handler. *)
Theorem delete_question_missing_id (id : Z) (w : world) :
  id ∉ Question.id <$> questions w →
  delete_question id w = (Raise AttributeError, logged w [GetQuestion id])
  ∧ handle_result (Raise AttributeError) = ErrorPage 500.
Proof.
  intros Habsent. split; [| reflexivity].
  unfold delete_question, except_IndexError, Question_query_get,
    Question_delete.
  run_view. by rewrite find_question_absent.
Qed.

Lemma reques_unbound :
  bool_decide ("reques" ∈ search_questions_locals ++ create_app_names
                           ++ module_names ++ builtin_names) = false.
Proof. by vm_compute. Qed.

(** The search view stops at its first statement, whatever the request. *)
Lemma search_questions_NameError (req : request) (w : world) :
  search_questions req w = (Raise NameError, w).
Proof.
  unfold search_questions, search_questions_with, load_name.
  rewrite reques_unbound. reflexivity.
Qed.

(** POST /questions reaches the view registered first for it. *)
Lemma dispatch_post_questions (fuel : nat) (req : request) :
  method req = POST → path req = ["questions"] →
  dispatch_request fuel req = create_question req.
Proof.
  destruct req as [mth p a b]. simpl. intros -> ->. reflexivity.
Qed.

(** A body without the four fields of a question is refused by the create
    view before it touches the store. *)
Lemma create_question_without_fields (req : request)
    (m : gmap string json) (w : world) :
  get_json req = JObj m →
  m !! "question" = None → m !! "answer" = None →
  m !! "difficulty" = None → m !! "category" = None →
  create_question req w = (Abort 422, w).
Proof.
  intros Hbody Hq Ha Hd Hc. unfold create_question.
  rewrite Hbody. simpl. rewrite Hq, Ha, Hd, Hc. reflexivity.
Qed.

(** C9: every POST /questions request runs the create view, the first of
    the two registered for that route; a body without the four fields of a
    question, such as one holding a searchTerm alone, is answered 422 by
    the unprocessable-entity handler and leaves the world as it was: no
    statement is sent, so nothing is searched and nothing inserted. *)
Theorem post_questions_runs_create (fuel : nat) (req : request) :
  method req = POST → path req = ["questions"] →
  dispatch_request fuel req = create_question req
  ∧ ∀ (m : gmap string json) (w : world),
      get_json req = JObj m →
      m !! "question" = None → m !! "answer" = None →
      m !! "difficulty" = None → m !! "category" = None →
      dispatch_request fuel req w = (Abort 422, w)
      ∧ full_dispatch_request fuel req w
        = (Json (error_body 422 "Unprocessable entity!") 422, w).
Proof.
  intros Hm Hp.
  pose proof (dispatch_post_questions fuel req Hm Hp) as Hcreate.
  split; [done |]. intros m w Hbody Hq Ha Hd Hc.
  unfold full_dispatch_request. rewrite Hcreate.
  by rewrite (create_question_without_fields req m w).
Qed.

(** C5 (what the code does): for a term that is not empty and matches no
    question, the store's query answers with the empty list, but the search
    view never sends it: it raises [NameError] on its first statement and
    the request is answered with the server's 500 page; over HTTP the route
    runs the create view instead, which answers 422.  Neither is the
    not-found answer. *)
Theorem search_questions_zero_matches (fuel : nat) (req : request)
    (m : gmap string json) (term : json) (w : world) :
  get_json req = JObj m →
  m !! "searchTerm" = Some term →
  py_eq_empty_str term = false →
  (∀ q, q ∈ questions w →
        db_ilike ("%" +:+ py_str term +:+ "%") (Question.question q)
        = false) →
  Question_query_filter_ilike ("%" +:+ py_str term +:+ "%") w
  = (Return [],
     logged w [SelectQuestionsLike ("%" +:+ py_str term +:+ "%")])
  ∧ search_questions req w = (Raise NameError, w)
  ∧ handle_result (Raise NameError) = ErrorPage 500
  ∧ (method req = POST → path req = ["questions"] →
     m !! "question" = None → m !! "answer" = None →
     m !! "difficulty" = None → m !! "category" = None →
     full_dispatch_request fuel req w
     = (Json (error_body 422 "Unprocessable entity!") 422, w)).
Proof.
  intros Hbody Hterm Hnonempty Hnone.
  split; [| split; [apply search_questions_NameError | split; [done |]]].
  - unfold Question_query_filter_ilike. run_view. do 2 f_equal.
    induction (questions w) as [| q qs IH]; [done |]. simpl.
    rewrite Hnone by apply list_elem_of_here.
    apply IH. intros q' Hq'. apply Hnone. by apply list_elem_of_further.
  - intros Hm Hp Hq Ha Hd Hc. unfold full_dispatch_request.
    rewrite (dispatch_post_questions fuel req Hm Hp).
    by rewrite (create_question_without_fields req m w).
Qed.

End Handlers.

Section Totals.
Context `{Platform}.



End Totals.

Section Quiz.
Context `{Platform}.

(** C8 (amended): a quiz request whose body is an object that lacks the
    category or the list of previous questions is aborted with 400,
    answered by the bad-request handler, before any query or draw: the
    world is as it was and no question is returned, however long the view
    may run. *)
Theorem quiz_requires_both_fields (fuel : nat) (req : request)
    (m : gmap string json) (w : world) :
  get_json req = JObj m →
  m !! "quiz_category" = None ∨ m !! "previous_questions" = None →
  get_random_quiz_question fuel req w = (Abort 400, w)
  ∧ handle_result (Abort 400) = Json (error_body 400 "Bad request!") 400.
Proof.
  intros Hbody Hmissing. split; [| reflexivity].
  unfold get_random_quiz_question. rewrite Hbody. run_view.
  destruct Hmissing as [-> | ->]; simpl.
  - reflexivity.
  - by rewrite orb_true_r.
Qed.

End Quiz.

(** ** Quiz selection *)

Section Selection.
Context `{Platform}.

Lemma elem_of_candidate_pool (c : Z) (w : world) (q : Question.t) :
  q ∈ candidate_pool c w
  ↔ q ∈ questions w ∧ (c = 0 ∨ Question.category q = c).
Proof.
  unfold candidate_pool. destruct (Z.eqb_spec c 0) as [-> | Hc].
  - split; [intros Hq; split; [done | by left] | by intros [Hq _]].
  - rewrite list_elem_of_In, filter_In, <- list_elem_of_In, Z.eqb_eq.
    split.
    + intros [Hq Hcat]. split; [done | by right].
    + intros [Hq [Hzero | Hcat]]; [done | by split].
Qed.

Lemma get_random_question_empty (w : world) :
  get_random_question [] w = (Raise ValueError, w).
Proof. reflexivity. Qed.

Lemma get_random_question_member (qs : list Question.t) (w : world) :
  qs ≠ [] →
  ∃ q, get_random_question qs w = (Return q, drew w) ∧ q ∈ qs
       ∧ qs !! (entropy w (drawn w) `mod` length qs)%nat = Some q.
Proof.
  intros Hne.
  assert (0 < Z.of_nat (length qs)) as Hlen
    by (destruct qs; [done | simpl; lia]).
  set (n := Z.of_nat (length qs)) in *.
  set (i := Z.of_nat (entropy w (drawn w)) `mod` n).
  assert (0 ≤ i < n) as Hi by (apply Z.mod_pos_bound; lia).
  destruct (lookup_lt_is_Some_2 qs (Z.to_nat i)) as [q Hq]; [lia |].
  exists q. split; [| split].
  - unfold get_random_question, randint. run_view. fold n.
    assert ((n - 1 <? 0) = false) as -> by lia.
    replace (n - 1 - 0 + 1) with n by lia. simpl. fold i.
    rewrite Z.add_0_l. unfold py_index. fold n.
    assert ((i <? 0) = false) as -> by lia.
    assert ((0 <=? i) && (i <? n) = true) as -> by lia.
    by rewrite Hq.
  - by eapply list_elem_of_lookup_2.
  - rewrite <- Hq. f_equal. unfold i, n.
    rewrite <- Nat2Z.inj_mod. by rewrite Nat2Z.id.
Qed.

Lemma existsb_py_eq_int (prev : list json) (z : Z) :
  JNum z ∈ prev → existsb (λ x, py_eq_int x z) prev = true.
Proof.
  intros Hin. apply existsb_exists. exists (JNum z).
  split; [by apply list_elem_of_In | simpl; apply Z.eqb_refl].
Qed.

Lemma not_existsb_py_eq_int (prev : list json) (z : Z) :
  existsb (λ x, py_eq_int x z) prev = false → JNum z ∉ prev.
Proof.
  intros Hnone Hin. by rewrite existsb_py_eq_int in Hnone.
Qed.

(** With every question of a pool already seen, the loop is still running
    after any number of tests. *)
Lemma while_found_all_seen (pool : list Question.t) (prev : list json) :
  pool ≠ [] →
  (∀ q, q ∈ pool → JNum (Question.id q) ∈ prev) →
  ∀ (fuel : nat) (next_question : Question.t) (w : world),
    next_question ∈ pool →
    (while_found fuel pool (JArr prev) next_question w).1 = Running.
Proof.
  intros Hne Hseen fuel. induction fuel as [| fuel IH]; [done |].
  intros nq w Hnq. simpl. run_view.
  rewrite existsb_py_eq_int by auto.
  destruct (get_random_question_member pool w Hne) as (q & -> & Hq & _).
  specialize (IH q (drew w) Hq).
  destruct (while_found fuel pool (JArr prev) q (drew w)) as [r w'].
  simpl in IH. by rewrite IH.
Qed.

(** What the loop returns is the question it started from or one of the
    pool, and one that [previous_questions] does not hold. *)
Lemma while_found_result (pool : list Question.t) (prev : json) :
  ∀ (fuel : nat) (next_question q : Question.t) (w w' : world),
    while_found fuel pool prev next_question w = (Return q, w') →
    (q = next_question ∨ q ∈ pool)
    ∧ py_in (Question.id q) prev = Return false.
Proof.
  intros fuel. induction fuel as [| fuel IH]; [done |].
  intros nq q w w'. simpl. run_view.
  destruct (py_in (Question.id nq) prev) as [[|] | | |] eqn:Hseen;
    try done.
  - destruct pool as [| q0 pool'] eqn:Hpool; [done |]. rewrite <- Hpool in *.
    destruct (get_random_question_member pool w) as (q1 & -> & Hq1 & _);
      [by rewrite Hpool |].
    intros Hrun. apply IH in Hrun as [[-> | Hin] Hnot]; auto.
  - intros [= <- <-]. split; [by left | done].
Qed.

(** What the view returns after it fetched the pool. *)
Lemma quiz_draw_result (fuel : nat) (pool : list Question.t) (prev : json)
    (w w' : world) (body : json) (status : Z) :
  (next_question ← get_random_question pool;
   next_question ← while_found fuel pool prev next_question;
   mret (jsonify (<["success" := JBool true]>
                 (<["question" := Question.format next_question]> ∅)),
         200)) w
  = (Return (body, status), w') →
  ∃ q, body = jsonify (<["success" := JBool true]>
                      (<["question" := Question.format q]> ∅))
       ∧ status = 200 ∧ q ∈ pool
       ∧ py_in (Question.id q) prev = Return false.
Proof.
  destruct pool as [| q0 pool'] eqn:Hpool; [done |]. rewrite <- Hpool.
  destruct (get_random_question_member pool w) as (q1 & Hdraw & Hq1 & _);
    [by rewrite Hpool |].
  unfold mbind, view_bind. rewrite Hdraw.
  destruct (while_found fuel _ _ q1 _) as [[q | st | e |] w''] eqn:Hloop;
    try done.
  intros [= <- <- <-].
  apply while_found_result in Hloop as [Hmember Hnot].
  exists q. repeat split; try done.
  by destruct Hmember as [-> | Hin].
Qed.

(** The quiz view, once the body is read: fetch the pool, draw, loop. *)
Lemma get_random_quiz_question_decoded (fuel : nat) (req : request)
    (m k : gmap string json) (c : Z) (prev : list json) (w : world) :
  get_json req = JObj m →
  m !! "previous_questions" = Some (JArr prev) →
  m !! "quiz_category" = Some (JObj k) →
  k !! "id" = Some (JNum c) →
  get_random_quiz_question fuel req w
  = (next_question ← get_random_question (candidate_pool c w);
     next_question ← while_found fuel (candidate_pool c w) (JArr prev)
                                 next_question;
     mret (jsonify (<["success" := JBool true]>
                   (<["question" := Question.format next_question]> ∅)),
           200))
      (logged w [pool_statement c]).
Proof.
  intros Hbody Hprev Hcat Hid.
  unfold get_random_quiz_question. rewrite Hbody. run_view.
  rewrite Hprev, Hcat. simpl. rewrite Hid. simpl.
  unfold candidate_pool, pool_statement.
  destruct (c =? 0); [reflexivity |].
  unfold Question_query_filter_by_category. rewrite db_int_eq_JNum.
  reflexivity.
Qed.

(** C1 (what the code does): when [previous_questions] holds the id of
    every question of the candidate pool, the quiz view has no exhausted
    outcome.  On an empty pool the first draw raises [ValueError] and the
    request is answered with the server's 500 page; on a pool that is not
    empty the loop is still running after any number of tests, and the
    request is never answered. *)
Theorem quiz_exhausted_pool (fuel : nat) (req : request)
    (m k : gmap string json) (c : Z) (prev : list json) (w : world) :
  get_json req = JObj m →
  m !! "previous_questions" = Some (JArr prev) →
  m !! "quiz_category" = Some (JObj k) →
  k !! "id" = Some (JNum c) →
  (∀ q, q ∈ candidate_pool c w → JNum (Question.id q) ∈ prev) →
  let r := (get_random_quiz_question fuel req w).1 in
  (candidate_pool c w = [] →
   r = Raise ValueError ∧ handle_result r = ErrorPage 500)
  ∧ (candidate_pool c w ≠ [] →
     r = Running ∧ handle_result r = Unanswered).
Proof.
  intros Hbody Hprev Hcat Hid Hseen r. unfold r.
  rewrite (get_random_quiz_question_decoded fuel req m k c prev w)
    by done.
  split.
  - intros ->. by run_view.
  - intros Hne.
    destruct (get_random_question_member (candidate_pool c w)
                (logged w [pool_statement c]) Hne) as (q & Hdraw & Hq & _).
    pose proof (while_found_all_seen (candidate_pool c w) prev Hne Hseen
                  fuel q (drew (logged w [pool_statement c])) Hq) as Hloop.
    unfold mbind, view_bind. rewrite Hdraw.
    destruct (while_found fuel _ _ q _) as [r' w']. simpl in Hloop.
    by rewrite Hloop.
Qed.

(** C2: whenever the quiz view returns, the request named a category
    object with an id and a collection of previous questions, the status is
    200 and the body holds one formatted question.  That question is of the
    candidate pool: a row of the table, of any category when the scope
    equals 0 and else of the category the scope selects (for an integer
    scope, the category equal to it); and [in] finds its id nowhere in the
    previous questions (for a list, the id is not one of its elements). *)
Theorem quiz_returns_unseen_question (fuel : nat) (req : request)
    (w w' : world) (body : json) (status : Z) :
  get_random_quiz_question fuel req w = (Return (body, status), w') →
  ∃ (m k : gmap string json) (prev scope : json) (q : Question.t),
    get_json req = JObj m
    ∧ m !! "previous_questions" = Some prev
    ∧ m !! "quiz_category" = Some (JObj k)
    ∧ k !! "id" = Some scope
    ∧ body = jsonify (<["success" := JBool true]>
                     (<["question" := Question.format q]> ∅))
    ∧ status = 200
    ∧ q ∈ questions w
    ∧ (py_eq_int scope 0 = true
       ∨ ∃ p, db_int_eq scope = Some p ∧ p (Question.category q) = true)
    ∧ (∀ c, scope = JNum c → q ∈ candidate_pool c w)
    ∧ py_in (Question.id q) prev = Return false
    ∧ (∀ ids, prev = JArr ids → JNum (Question.id q) ∉ ids).
Proof.
  unfold get_random_quiz_question.
  destruct (get_json req) as [| | | | | m] eqn:Hbody; try done.
  run_view.
  destruct (m !! "previous_questions") as [prev |] eqn:Hprev; simpl;
    [| by rewrite orb_true_r].
  destruct (m !! "quiz_category") as [cat |] eqn:Hcat; simpl; [| done].
  destruct (py_is_None cat) eqn:Hcat_none; [done |].
  destruct (py_is_None prev) eqn:Hprev_none; [done |]. simpl.
  destruct cat as [| | | | | k]; try done. simpl.
  destruct (k !! "id") as [scope |] eqn:Hid; [| done]. simpl.
  intros Hrun.
  assert (∃ pool w0,
            (next_question ← get_random_question pool;
             next_question ← while_found fuel pool prev next_question;
             mret (jsonify (<["success" := JBool true]>
                           (<["question" :=
                                Question.format next_question]> ∅)),
                   200)) w0 = (Return (body, status), w')
            ∧ (∀ q, q ∈ pool →
                 q ∈ questions w
                 ∧ (py_eq_int scope 0 = true
                    ∨ ∃ p, db_int_eq scope = Some p
                           ∧ p (Question.category q) = true)))
    as (pool & w0 & Htail & Hpool).
  { destruct (py_eq_int scope 0) eqn:Hall.
    - do 2 eexists. split; [exact Hrun |]. intros q Hq. split; [done |].
      by left.
    - revert Hrun. unfold Question_query_filter_by_category.
      destruct (db_int_eq scope) as [p |] eqn:Hp; [| done].
      intros Hrun. do 2 eexists. split; [exact Hrun |].
      intros q [Hq Hcatq]%list_elem_of_In%filter_In.
      split; [by apply list_elem_of_In |]. right. by exists p. }
  apply quiz_draw_result in Htail as (q & -> & -> & Hq & Hunseen).
  destruct (Hpool q Hq) as [Hin Hscope].
  exists m, k, prev, scope, q. repeat split; try done.
  - intros c ->. apply elem_of_candidate_pool. split; [done |].
    destruct Hscope as [Hzero | (p & Hp & Hcatq)].
    + left. simpl in Hzero. lia.
    + right. rewrite db_int_eq_JNum in Hp. injection Hp as <-. lia.
  - intros ids ->. simpl in Hunseen. injection Hunseen as Hnone.
    by apply not_existsb_py_eq_int.
Qed.
(** The view does return when it can: if the first draw lands on a
    question that [previous_questions] does not hold, one test of the loop
    is enough. *)
Lemma quiz_first_draw_unseen (fuel : nat) (req : request)
    (m k : gmap string json) (c : Z) (prev : list json) (w : world)
    (q : Question.t) :
  get_json req = JObj m →
  m !! "previous_questions" = Some (JArr prev) →
  m !! "quiz_category" = Some (JObj k) →
  k !! "id" = Some (JNum c) →
  candidate_pool c w
    !! (entropy w (drawn w) `mod` length (candidate_pool c w))%nat
  = Some q →
  existsb (λ x, py_eq_int x (Question.id q)) prev = false →
  get_random_quiz_question (S fuel) req w
  = (Return (jsonify (<["success" := JBool true]>
                     (<["question" := Question.format q]> ∅)), 200),
     drew (logged w [pool_statement c])).
Proof.
  intros Hbody Hprev Hcat Hid Hdraw Hunseen.
  rewrite (get_random_quiz_question_decoded (S fuel) req m k c prev w)
    by done.
  destruct (get_random_question_member (candidate_pool c w)
              (logged w [pool_statement c])) as (q1 & Hrun & _ & Hq1).
  { intros Hnil. by rewrite Hnil in Hdraw. }
  simpl in Hq1. rewrite Hdraw in Hq1. injection Hq1 as <-.
  unfold mbind, view_bind. rewrite Hrun. simpl. run_view.
  by rewrite Hunseen.
Qed.

End Selection.

(** ** The results on the sample catalogue *)

Lemma paginate_questions_slice_witness :
  1 ≤ 3
  ∧ paginate_questions (page_request "3") sample_selection
    = drop 20 (map Question.format sample_selection)
  ∧ length (paginate_questions (page_request "3") sample_selection) = 5%nat.
Proof.
  split; [lia |].
  apply (paginate_questions_slice (page_request "3") sample_selection 3).
  - lia.
  - right. exists "3". split; reflexivity.
  - reflexivity.
  - reflexivity.
Defined.

Lemma sample_category_ids :
  Category.id <$> categories sample_world = [1; 2].
Proof. reflexivity. Qed.

Lemma get_questions_by_category_resolves_witness :
  NoDup (Category.id <$> categories sample_world)
  ∧ get_questions_by_category category_request 100 sample_world
    = (Abort 400, logged sample_world [SelectCategoryById 100])
  ∧ ∃ body,
      get_questions_by_category category_request 1 sample_world
      = (Return (body, 200),
         logged sample_world [SelectCategoryById 1;
                              SelectQuestionsByCategory (JNum 1);
                              SelectQuestions])
      ∧ field body "current_category" = Some (JStr "Science").
Proof.
  assert (NoDup (Category.id <$> categories sample_world)) as Hkey.
  { rewrite sample_category_ids. by apply (bool_decide_unpack _). }
  split; [exact Hkey |]. split.
  - apply (get_questions_by_category_resolves category_request 100
             sample_world Hkey).
    rewrite sample_category_ids. by apply (bool_decide_unpack _).
  - apply (proj2 (get_questions_by_category_resolves category_request 1
                    sample_world Hkey) (Category.Build 1 "Science")).
    + apply list_elem_of_here.
    + reflexivity.
Defined.

Lemma delete_question_missing_id_witness :
  (77 ∉ Question.id <$> questions sample_world)
  ∧ delete_question 77 sample_world
    = (Raise AttributeError, logged sample_world [GetQuestion 77])
  ∧ handle_result (Raise AttributeError) = ErrorPage 500.
Proof.
  assert (77 ∉ Question.id <$> questions sample_world) as Habsent
    by (by apply (bool_decide_unpack _)).
  split; [exact Habsent |].
  exact (delete_question_missing_id 77 sample_world Habsent).
Defined.

Lemma post_questions_runs_create_witness :
  dispatch_request 0 (search_request "Chad")
  = create_question (search_request "Chad")
  ∧ full_dispatch_request 0 (search_request "Chad") sample_world
    = (Json (error_body 422 "Unprocessable entity!") 422, sample_world).
Proof.
  destruct (post_questions_runs_create 0 (search_request "Chad")
              eq_refl eq_refl) as [Hcreate Hrefused].
  split; [exact Hcreate |].
  apply (Hrefused (search_body "Chad") sample_world); reflexivity.
Defined.

Lemma search_questions_zero_matches_witness :
  Question_query_filter_ilike "%Chad%" sample_world
  = (Return [], logged sample_world [SelectQuestionsLike "%Chad%"])
  ∧ search_questions (search_request "Chad") sample_world
    = (Raise NameError, sample_world)
  ∧ full_dispatch_request 0 (search_request "Chad") sample_world
    = (Json (error_body 422 "Unprocessable entity!") 422, sample_world).
Proof.
  destruct (search_questions_zero_matches 0 (search_request "Chad")
              (search_body "Chad") (JStr "Chad") sample_world)
    as (Hquery & Hview & _ & Hroute).
  - reflexivity.
  - reflexivity.
  - reflexivity.
  - apply Forall_forall. repeat constructor.
  - split; [exact Hquery |]. split; [exact Hview |].
    apply Hroute; reflexivity.
Defined.


Lemma quiz_requires_both_fields_witness :
  get_random_quiz_question 100 (Request POST ["quizzes"] ∅ (JObj ∅))
                           sample_world
  = (Abort 400, sample_world)
  ∧ handle_result (Abort 400) = Json (error_body 400 "Bad request!") 400.
Proof.
  apply (quiz_requires_both_fields 100
           (Request POST ["quizzes"] ∅ (JObj ∅)) ∅ sample_world).
  - reflexivity.
  - left. reflexivity.
Defined.

Lemma sample_pool :
  candidate_pool 1 sample_world
  = [sample_question 5; sample_question 9; sample_question 12].
Proof. reflexivity. Qed.

Lemma quiz_exhausted_pool_witness :
  (∀ q, q ∈ candidate_pool 1 sample_world →
        JNum (Question.id q) ∈ JNum <$> [5; 9; 12])
  ∧ (get_random_quiz_question 1000 (quiz_request [5; 9; 12] 1)
                              sample_world).1 = Running.
Proof.
  assert (∀ q, q ∈ candidate_pool 1 sample_world →
               JNum (Question.id q) ∈ JNum <$> [5; 9; 12]) as Hseen.
  { apply Forall_forall. rewrite sample_pool.
    repeat constructor. }
  split; [exact Hseen |].
  apply (quiz_exhausted_pool 1000 (quiz_request [5; 9; 12] 1)
           (quiz_body [5; 9; 12] 1)
           (<["type" := JStr "Science"]> (<["id" := JNum 1]> ∅))
           1 (JNum <$> [5; 9; 12]) sample_world);
    try reflexivity; try exact Hseen.
  by rewrite sample_pool.
Defined.

Lemma quiz_returns_unseen_question_witness :
  ∃ q w',
    get_random_quiz_question 10 (quiz_request [5; 9] 1) sample_world
    = (Return (jsonify (<["success" := JBool true]>
                       (<["question" := Question.format q]> ∅)), 200), w')
    ∧ q ∈ candidate_pool 1 sample_world
    ∧ JNum (Question.id q) ∉ JNum <$> [5; 9].
Proof.
  assert (get_random_quiz_question 10 (quiz_request [5; 9] 1) sample_world
          = (Return (jsonify (<["success" := JBool true]>
                             (<["question" :=
                                  Question.format (sample_question 12)]> ∅)),
                     200),
             World (questions sample_world) (categories sample_world) 24
                   [SelectQuestionsByCategory (JNum 1)] (λ n, n) 3))
    as Hrun by reflexivity.
  destruct (quiz_returns_unseen_question 10 (quiz_request [5; 9] 1)
              sample_world _ _ _ Hrun)
    as (m & k & prev & scope & q & Hbody & Hprev & Hcat & Hid & Hq & _
        & _ & _ & Hpool & _ & Hunseen).
  injection Hbody as <-.
  injection Hprev as <-. injection Hcat as <-. injection Hid as <-.
  exists q. eexists. split; [| split].
  - rewrite Hrun. by rewrite <- Hq.
  - by apply Hpool.
  - by apply Hunseen.
Defined.

(** * Further properties of the views *)

(** ** Pages *)

Section MorePagination.
Context `{Platform}.

Lemma py_slice_length {A : Type} (l : list A) (start stop : Z) :
  start ≤ stop → (length (py_slice l start stop) ≤ Z.to_nat (stop - start))%nat.
Proof.
  intros Hle. unfold py_slice. rewrite length_take.
  etransitivity; [apply Nat.le_min_l |]. cbv beta zeta.
  destruct (Z.ltb_spec start 0), (Z.ltb_spec stop 0); lia.
Qed.

Lemma py_slice_elem_of {A : Type} (l : list A) (start stop : Z) (x : A) :
  x ∈ py_slice l start stop → x ∈ l.
Proof.
  unfold py_slice. intros Hx.
  apply list_elem_of_lookup in Hx as [i Hi].
  apply lookup_take_Some in Hi as [Hi _]. rewrite lookup_drop in Hi.
  by eapply list_elem_of_lookup_2.
Qed.

(** X1: a page never holds more than ten questions, whatever the page
    number is and whether or not it can be read as a number. *)
Theorem paginate_questions_at_most_ten (req : request)
    (selection : list Question.t) :
  (length (paginate_questions req selection) ≤ 10)%nat.
Proof.
  unfold paginate_questions, QUESTIONS_PER_PAGE.
  etransitivity; [apply py_slice_length; lia |]. lia.
Qed.

(** X2: the pages 1, 2, ... lose nothing: the question at index j of the
    selection is on page j/10 + 1, at position j mod 10, formatted. *)
Theorem paginate_questions_covers (req : request)
    (selection : list Question.t) (j : nat) (q : Question.t) :
  selection !! j = Some q →
  args_get_int (args req) "page" 1 = Z.of_nat (j / 10) + 1 →
  paginate_questions req selection !! (j `mod` 10)%nat
  = Some (Question.format q).
Proof.
  intros Hq Hpage.
  rewrite (paginate_questions_page req selection _ Hpage).
  rewrite py_slice_window by lia.
  rewrite lookup_take_lt by (apply Nat.mod_upper_bound; lia).
  rewrite lookup_drop, list_lookup_fmap.
  replace (Z.to_nat ((Z.of_nat (j / 10) + 1 - 1) * 10) + j `mod` 10)%nat
    with j; [by rewrite Hq |].
  rewrite (Nat.div_mod_eq j 10) at 1. lia.
Qed.

(** X3: a page number below 1 is not refused.  Page 0 is empty for every
    selection; page -k is the window of ten that ends 10k before the end
    of the selection, cut at its start. *)
Theorem paginate_questions_below_one (req : request)
    (selection : list Question.t) (p : Z) :
  p ≤ 0 →
  args_get_int (args req) "page" 1 = p →
  let items := map Question.format selection in
  let keep := (length items - 10 * Z.to_nat (- p))%nat in
  (p = 0 → paginate_questions req selection = [])
  ∧ (p < 0 →
     paginate_questions req selection
     = drop (keep - 10) (take keep items)).
Proof.
  intros Hp Hpage items keep.
  rewrite (paginate_questions_page req selection p Hpage). fold items.
  unfold py_slice. split.
  - intros ->. simpl.
    replace (Z.to_nat _) with 0%nat; [done |].
    destruct (Z.of_nat (length items)); lia.
  - intros Hneg.
    assert (((p - 1) * 10 <? 0) = true) as -> by lia.
    assert (((p - 1) * 10 + 10 <? 0) = true) as -> by lia.
    set (n := length items) in *.
    assert (Z.to_nat (Z.max ((p - 1) * 10 + 10 + Z.of_nat n) 0) = keep)
      as Hhi by (unfold keep; lia).
    assert (Z.to_nat (Z.max ((p - 1) * 10 + Z.of_nat n) 0)
            = (keep - 10)%nat) as Hlo by (unfold keep; lia).
    rewrite <- Hlo, <- Hhi.
    set (lo := Z.max ((p - 1) * 10 + Z.of_nat n) 0).
    set (hi := Z.max ((p - 1) * 10 + 10 + Z.of_nat n) 0).
    rewrite take_drop_commute. do 2 f_equal. lia.
Qed.

End MorePagination.

(** ** What a request can change *)

Section ReadOnly.
Context `{Platform}.

Lemma keeps_ret {A B : Type} (f : world → B) (a : A) : keeps f (mret a).
Proof. by intros w. Qed.

Lemma keeps_lift {A B : Type} (f : world → B) (r : result A) :
  keeps f (lift r).
Proof. by intros w. Qed.

Lemma keeps_abort {A B : Type} (f : world → B) (s : Z) :
  keeps f (abort (A := A) s).
Proof. by intros w. Qed.

Lemma keeps_raise {A B : Type} (f : world → B) (e : exception) :
  keeps f (raise (A := A) e).
Proof. by intros w. Qed.

Lemma keeps_gets {A B : Type} (f : world → B) (g : world → A) :
  keeps f (gets g).
Proof. by intros w. Qed.

Lemma keeps_bind {A B C : Type} (f : world → C) (m : view A)
    (k : A → view B) :
  keeps f m → (∀ a, keeps f (k a)) → keeps f (m ≫= k).
Proof.
  intros Hm Hk w. unfold mbind, view_bind.
  specialize (Hm w). destruct (m w) as [[a | s | e |] w1]; simpl in *;
    try done.
  by rewrite Hk.
Qed.

Lemma keeps_except_IndexError {A B : Type} (f : world → B)
    (body handler : view A) :
  keeps f body → keeps f handler →
  keeps f (except_IndexError body handler).
Proof.
  intros Hb Hh w. unfold except_IndexError.
  specialize (Hb w). destruct (body w) as [[a | s | [] |] w1]; simpl in *;
    try done.
  by rewrite Hh.
Qed.

Lemma keeps_except_Exception {A B : Type} (f : world → B)
    (body handler : view A) :
  keeps f body → keeps f handler →
  keeps f (except_Exception body handler).
Proof.
  intros Hb Hh w. unfold except_Exception.
  specialize (Hb w). destruct (body w) as [[a | s | e |] w1]; simpl in *;
    try done; by rewrite Hh.
Qed.

Lemma keeps_store_categories {A : Type} (m : view A) :
  keeps store m → keeps categories m.
Proof. intros Hm w. specialize (Hm w). by injection Hm. Qed.

Lemma keeps_store_send (s : statement) : keeps store (send s).
Proof. by intros w. Qed.

Lemma keeps_store_randint (a b : Z) : keeps store (randint a b).
Proof. intros w. unfold randint. by case_match. Qed.

Lemma keeps_categories_set_questions (qs : list Question.t) (next : Z) :
  keeps categories (set_questions qs next).
Proof. by intros w. Qed.

Lemma keeps_load_name {B : Type} (f : world → B) (locals : list string)
    (x : string) :
  keeps f (load_name locals x).
Proof. unfold load_name. case_match; [apply keeps_ret | apply keeps_raise]. Qed.

Lemma keeps_store_Question_query_all : keeps store Question_query_all.
Proof.
  apply keeps_bind; [apply keeps_store_send | intros; apply keeps_gets].
Qed.

Lemma keeps_store_Category_query_all : keeps store Category_query_all.
Proof.
  apply keeps_bind; [apply keeps_store_send | intros; apply keeps_gets].
Qed.

Lemma keeps_store_Question_query_filter_by_category (key : json) :
  keeps store (Question_query_filter_by_category key).
Proof.
  unfold Question_query_filter_by_category. case_match.
  - apply keeps_bind; [apply keeps_store_send | intros; apply keeps_gets].
  - apply keeps_raise.
Qed.

Lemma keeps_store_get_random_question (pool : list Question.t) :
  keeps store (get_random_question pool).
Proof.
  apply keeps_bind; [apply keeps_store_randint | intros; apply keeps_lift].
Qed.

Lemma keeps_store_while_found (fuel : nat) (pool : list Question.t)
    (prev : json) (q : Question.t) :
  keeps store (while_found fuel pool prev q).
Proof.
  revert q. induction fuel as [| fuel IH]; intros q; simpl.
  - apply keeps_lift.
  - apply keeps_bind; [apply keeps_lift |].
    intros [|]; [| apply keeps_ret].
    apply keeps_bind; [apply keeps_store_get_random_question | done].
Qed.

Lemma keeps_store_get_all_categories : keeps store get_all_categories.
Proof.
  apply keeps_except_Exception; [| apply keeps_abort].
  apply keeps_bind; [apply keeps_store_Category_query_all |].
  intros. apply keeps_ret.
Qed.

Lemma keeps_store_get_questions (req : request) :
  keeps store (get_questions req).
Proof.
  apply keeps_bind; [apply keeps_store_Question_query_all | intros qs].
  apply keeps_bind; [apply keeps_store_Category_query_all | intros cs].
  cbv zeta. case_match; [apply keeps_abort | apply keeps_ret].
Qed.

Lemma keeps_store_search_questions (req : request) :
  keeps store (search_questions req).
Proof. intros w. by rewrite search_questions_NameError. Qed.

Lemma keeps_store_get_questions_by_category (req : request) (id : Z) :
  keeps store (get_questions_by_category req id).
Proof.
  apply keeps_bind.
  - apply keeps_bind; [apply keeps_store_send | intros _].
    apply keeps_bind; [apply keeps_gets | intros rows].
    destruct rows as [| c [| c' rows]];
      [apply keeps_ret | apply keeps_ret | apply keeps_raise].
  - intros [c |]; [| apply keeps_abort].
    apply keeps_bind;
      [apply keeps_store_Question_query_filter_by_category | intros sel].
    apply keeps_bind; [apply keeps_store_Question_query_all | intros all].
    apply keeps_ret.
Qed.

Lemma keeps_store_get_random_quiz_question (fuel : nat) (req : request) :
  keeps store (get_random_quiz_question fuel req).
Proof.
  apply keeps_bind; [apply keeps_lift | intros prev].
  apply keeps_bind; [apply keeps_lift | intros cat].
  case_match; [apply keeps_abort |].
  apply keeps_bind; [apply keeps_lift | intros scope].
  apply keeps_bind.
  { case_match; [apply keeps_store_Question_query_all |
                 apply keeps_store_Question_query_filter_by_category]. }
  intros pool.
  apply keeps_bind; [apply keeps_store_get_random_question | intros q].
  apply keeps_bind; [apply keeps_store_while_found | intros q'].
  apply keeps_ret.
Qed.

Lemma keeps_categories_create_question (req : request) :
  keeps categories (create_question req).
Proof.
  do 4 (apply keeps_bind; [apply keeps_lift | intros ?]).
  case_match; [apply keeps_abort |].
  apply keeps_except_IndexError; [| apply keeps_abort].
  apply keeps_bind; [| intros; apply keeps_ret].
  unfold Question_insert. repeat case_match; try apply keeps_raise.
  do 2 (apply keeps_bind; [apply keeps_gets | intros ?]).
  apply keeps_bind;
    [apply keeps_store_categories, keeps_store_send | intros _].
  apply keeps_categories_set_questions.
Qed.

Lemma keeps_categories_delete_question (id : Z) :
  keeps categories (delete_question id).
Proof.
  apply keeps_except_IndexError; [| apply keeps_abort].
  apply keeps_bind.
  { apply keeps_bind;
      [apply keeps_store_categories, keeps_store_send |
       intros; apply keeps_gets]. }
  intros [q |].
  - apply keeps_bind; [| intros; apply keeps_ret].
    apply keeps_bind;
      [apply keeps_store_categories, keeps_store_send | intros _].
    do 2 (apply keeps_bind; [apply keeps_gets | intros ?]).
    apply keeps_categories_set_questions.
  - apply keeps_bind; [apply keeps_raise | intros; apply keeps_ret].
Qed.

(** The rule a match comes from. *)
Lemma first_match_rule (req : request) (rules : list rule)
    (e : endpoint.t) (vs : list Z) :
  first_match req rules = Some (e, vs) →
  ∃ r, r ∈ rules ∧ rule_endpoint r = e
       ∧ match_path (rule_path r) (path req) = Some vs
       ∧ method req ∈ rule_methods r.
Proof.
  induction rules as [| r rules IH]; [done |]. simpl.
  destruct (match_rule req r) as [[e' vs'] |] eqn:Hr.
  - intros [= -> ->]. exists r. split; [apply list_elem_of_here |].
    unfold match_rule in Hr.
    destruct (match_path (rule_path r) (path req)) as [vs0 |]; [| done].
    simpl in Hr. case_bool_decide; [| done]. by injection Hr as <- <-.
  - intros (r' & Hin & Hrest)%IH. exists r'.
    split; [by apply list_elem_of_further | done].
Qed.

Lemma match_path_questions (p : list string) (vs : list Z) :
  match_path [Lit "questions"] p = Some vs → p = ["questions"].
Proof.
  destruct p as [| x [| y p]]; simpl; try done.
  - case_bool_decide; [by subst | done].
  - case_bool_decide; done.
Qed.

Lemma match_path_questions_id (p : list string) (vs : list Z) :
  match_path [Lit "questions"; IntArg] p = Some vs →
  ∃ s, p = ["questions"; s].
Proof.
  destruct p as [| x [| y [| z p]]]; simpl; try done.
  - case_bool_decide; done.
  - case_bool_decide; [subst; by exists y | done].
  - case_bool_decide; [| done]. destruct (int_converter y); done.
Qed.

(** X4: no request changes the categories, and only POST /questions and
    DELETE /questions/<id> can change the questions or the next key; every
    other request, answered or refused, leaves the store as it was. *)
Theorem store_changes_only_by_create_or_delete (fuel : nat)
    (req : request) (w : world) :
  let w' := (dispatch_request fuel req w).2 in
  categories w' = categories w
  ∧ (store w' = store w
     ∨ (method req = POST ∧ path req = ["questions"])
     ∨ (method req = DELETE ∧ ∃ s, path req = ["questions"; s])).
Proof.
  intros w'. unfold w', dispatch_request.
  assert (∀ m : view response, keeps store m →
            categories (m w).2 = categories w
            ∧ (store (m w).2 = store w
               ∨ (method req = POST ∧ path req = ["questions"])
               ∨ (method req = DELETE ∧ ∃ s, path req = ["questions"; s])))
    as Hro.
  { intros m Hm. split; [by apply keeps_store_categories | left; apply Hm]. }
  destruct (first_match req url_map) as [[e vs] |] eqn:Hmatch.
  - apply first_match_rule in Hmatch as (r & Hr & He & Hpath & Hmethod).
    unfold url_map in Hr.
    repeat (apply elem_of_cons in Hr as [-> | Hr]);
      [.. | by apply elem_of_nil in Hr]; simpl in *; subst e.
    + destruct vs; apply Hro;
        [apply keeps_store_get_all_categories | apply keeps_raise].
    + destruct vs; apply Hro;
        [apply keeps_store_get_questions | apply keeps_raise].
    + destruct vs as [| id [| id' vs]];
        [apply Hro, keeps_raise | | apply Hro, keeps_raise].
      split; [apply keeps_categories_delete_question |]. right. right.
      apply list_elem_of_singleton in Hmethod.
      split; [done | by eapply match_path_questions_id].
    + destruct vs; [| apply Hro, keeps_raise].
      split; [apply keeps_categories_create_question |]. right. left.
      apply list_elem_of_singleton in Hmethod.
      split; [done | by eapply match_path_questions].
    + destruct vs; apply Hro;
        [apply keeps_store_search_questions | apply keeps_raise].
    + destruct vs as [| id [| id' vs]]; apply Hro;
        [apply keeps_raise | apply keeps_store_get_questions_by_category
         | apply keeps_raise].
    + destruct vs; apply Hro;
        [apply keeps_store_get_random_quiz_question | apply keeps_raise].
  - case_match; apply Hro; apply keeps_abort.
Qed.

Lemma match_rule_endpoint (req : request) (r : rule) (e : endpoint.t)
    (vs : list Z) :
  match_rule req r = Some (e, vs) → e = rule_endpoint r.
Proof.
  unfold match_rule. destruct (match_path _ _); simpl; [| done].
  case_bool_decide; [| done]. by intros [= <- _].
Qed.

(** Whether a rule matches does not depend on the view it names. *)
Lemma match_rule_None (req : request) (p : list segment)
    (ms : list http_method) (e1 e2 : endpoint.t) :
  match_rule req (Rule p ms e1) = None →
  match_rule req (Rule p ms e2) = None.
Proof.
  unfold match_rule. simpl. destruct (match_path _ _); simpl; [| done].
  by case_bool_decide.
Qed.

(** X5: no request is routed to the search view: the rule registered for
    it is the second of two for POST /questions, and the first of them
    matches whenever the second would. *)
Theorem search_questions_never_routed (req : request) (e : endpoint.t)
    (vs : list Z) :
  first_match req url_map = Some (e, vs) → e ≠ endpoint.search_questions.
Proof.
  unfold url_map. simpl.
  repeat match goal with
  | |- context [match match_rule req ?r with _ => _ end] =>
      let Hr := fresh "Hr" in
      destruct (match_rule req r) as [[e' vs'] |] eqn:Hr;
      [ apply match_rule_endpoint in Hr; simpl in Hr;
        intros [= <- <-]; by subst
      | try (rewrite (match_rule_None _ _ _ _ endpoint.search_questions Hr))
      ]
  end.
  done.
Qed.

End ReadOnly.

(** ** Listing questions and categories *)

Section Listings.
Context `{Platform}.

Lemma paginate_questions_nil (req : request) :
  paginate_questions req [] = [].
Proof.
  unfold paginate_questions, py_slice. simpl.
  by rewrite drop_nil, take_nil.
Qed.

Lemma get_questions_run (req : request) (w : world) :
  get_questions req w
  = (if Z.of_nat (length (paginate_questions req (questions w))) =? 0
     then Abort 404
     else Return
            (jsonify
               (<["success" := JBool true]>
               (<["questions" :=
                    JArr (paginate_questions req (questions w))]>
               (<["total_questions" :=
                    JNum (Z.of_nat (length (questions w)))]>
               (<["categories" :=
                    JObj (categories_dict (categories w))]> ∅)))),
             200),
     logged w [SelectQuestions; SelectCategories]).
Proof.
  unfold get_questions, Question_query_all, Category_query_all.
  run_view. rewrite <- app_assoc. simpl. by case_match.
Qed.

(** X6: for a page number p >= 1, GET /questions is answered 404 by the
    not-found handler exactly when the table has no question at or after
    index (p-1)*10; otherwise it is answered 200 with the page, which holds
    min(10, n - (p-1)*10) questions, the size n of the whole table and the
    categories. *)
Theorem get_questions_page_or_404 (req : request) (w : world) (p : Z) :
  1 ≤ p →
  args_get_int (args req) "page" 1 = p →
  let n := Z.of_nat (length (questions w)) in
  let page := paginate_questions req (questions w) in
  let w' := logged w [SelectQuestions; SelectCategories] in
  (n ≤ (p - 1) * 10 →
   get_questions req w = (Abort 404, w')
   ∧ handle_result (Abort 404)
     = Json (error_body 404 "Resource not found!") 404)
  ∧ ((p - 1) * 10 < n →
     ∃ body,
       get_questions req w = (Return (body, 200), w')
       ∧ field body "questions" = Some (JArr page)
       ∧ Z.of_nat (length page) = Z.min 10 (n - (p - 1) * 10)
       ∧ field body "total_questions" = Some (JNum n)
       ∧ field body "categories"
         = Some (JObj (categories_dict (categories w)))).
Proof.
  intros Hp Hpage n page w'.
  assert (Z.of_nat (length page) = Z.max 0 (Z.min 10 (n - (p - 1) * 10)))
    as Hlen.
  { unfold page. rewrite (paginate_questions_page req _ p Hpage).
    rewrite py_slice_window by lia.
    rewrite length_take, length_drop, length_map. unfold n. lia. }
  rewrite get_questions_run. fold page. split.
  - intros Hout. split; [| done].
    assert ((Z.of_nat (length page) =? 0) = true) as -> by lia. done.
  - intros Hin. eexists.
    assert ((Z.of_nat (length page) =? 0) = false) as -> by lia.
    split; [reflexivity |]. repeat split. lia.
Qed.

(** X7: on an empty table GET /questions is answered 404 whatever page is
    asked for. *)
Theorem get_questions_empty_table (req : request) (w : world) :
  questions w = [] →
  get_questions req w
  = (Abort 404, logged w [SelectQuestions; SelectCategories]).
Proof.
  intros Hempty. rewrite get_questions_run, Hempty.
  by rewrite paginate_questions_nil.
Qed.

Lemma categories_dict_foldl (cs : list Category.t) (d : gmap string json)
    (k : string) :
  foldl (λ d c, <[pretty (Category.id c) := JStr (Category.type c)]> d) d cs
    !! k
  = match last (filter (λ c, pretty (Category.id c) = k) cs) with
    | Some c => Some (JStr (Category.type c))
    | None => d !! k
    end.
Proof.
  revert d. induction cs as [| c cs IH]; intros d; [done |]. simpl.
  rewrite IH, filter_cons. case_decide as Hk.
  - rewrite last_cons.
    destruct (last (filter _ cs)); [done |].
    by rewrite Hk, lookup_insert_eq.
  - destruct (last (filter _ cs)); [done |]. by rewrite lookup_insert_ne.
Qed.

(** The label found under a key is that of the last category whose id
    prints as the key. *)
Lemma categories_dict_lookup (cs : list Category.t) (k : string) :
  categories_dict cs !! k
  = (λ c, JStr (Category.type c))
      <$> last (filter (λ c, pretty (Category.id c) = k) cs).
Proof.
  unfold categories_dict. rewrite categories_dict_foldl.
  by destruct (last _).
Qed.

Lemma filter_none {A : Type} (P : A → Prop) `{!∀ x, Decision (P x)}
    (l : list A) :
  (∀ x, x ∈ l → ¬ P x) → filter P l = [].
Proof.
  induction l as [| x l IH]; intros Hnone; [done |].
  rewrite filter_cons, decide_False by (apply Hnone, list_elem_of_here).
  apply IH. intros y Hy. by apply Hnone, list_elem_of_further.
Qed.

Lemma filter_category_key (cs : list Category.t) (c : Category.t) :
  NoDup (Category.id <$> cs) → c ∈ cs →
  filter (λ c', pretty (Category.id c') = pretty (Category.id c)) cs = [c].
Proof.
  induction cs as [| c' cs IH]; intros Hnd Hin.
  - by apply elem_of_nil in Hin.
  - rewrite fmap_cons in Hnd. apply NoDup_cons in Hnd as [Hfresh Hnd].
    rewrite filter_cons. apply elem_of_cons in Hin as [<- | Hin].
    + rewrite decide_True by done. f_equal.
      apply filter_none. intros x Hx Heq.
      apply (inj pretty) in Heq. apply Hfresh. rewrite <- Heq.
      by apply list_elem_of_fmap_2.
    + rewrite decide_False; [by apply IH |].
      intros Heq. apply (inj pretty) in Heq. apply Hfresh. rewrite Heq.
      by apply list_elem_of_fmap_2.
Qed.

(** X8: GET /categories is always answered 200.  Every entry of the
    mapping is a category of the table under its id in decimal; when the
    ids are distinct every category is there with its label, and the last
    category of the table is there even when an earlier one has its id. *)
Theorem get_all_categories_lists (w : world) :
  let d := categories_dict (categories w) in
  get_all_categories w
  = (Return (jsonify (<["success" := JBool true]>
                     (<["categories" := JObj d]> ∅)), 200),
     logged w [SelectCategories])
  ∧ (∀ k v, d !! k = Some v →
            ∃ c, c ∈ categories w ∧ k = pretty (Category.id c)
                 ∧ v = JStr (Category.type c))
  ∧ (NoDup (Category.id <$> categories w) →
     ∀ c, c ∈ categories w →
          d !! pretty (Category.id c) = Some (JStr (Category.type c)))
  ∧ (∀ cs c, categories w = cs ++ [c] →
             d !! pretty (Category.id c) = Some (JStr (Category.type c))).
Proof.
  intros d. split; [done |]. split; [| split].
  - intros k v. unfold d. rewrite categories_dict_lookup.
    destruct (last _) as [c |] eqn:Hlast; [| done]. intros [= <-].
    apply last_Some_elem_of, list_elem_of_filter in Hlast as [Hk Hin].
    by exists c.
  - intros Hnd c Hin. unfold d.
    by rewrite categories_dict_lookup, (filter_category_key _ c).
  - intros cs c Hcs. unfold d.
    rewrite categories_dict_lookup, Hcs, filter_app, filter_cons.
    rewrite decide_True by done.
    by rewrite filter_nil, last_snoc.
Qed.

(** X9: when a category has the id, GET /categories/<id>/questions is
    answered 200 with the page of the questions of that category, each
    the format of a question of the table; a category without questions
    gives the empty list, still with 200. *)
Theorem get_questions_by_category_lists (req : request) (id : Z)
    (c : Category.t) (w : world) :
  NoDup (Category.id <$> categories w) →
  c ∈ categories w → Category.id c = id →
  ∃ body w' page,
    get_questions_by_category req id w = (Return (body, 200), w')
    ∧ field body "questions" = Some (JArr page)
    ∧ page = paginate_questions req
               (List.filter (λ q, id =? Question.category q) (questions w))
    ∧ (∀ x, x ∈ page →
            ∃ q, q ∈ questions w ∧ Question.category q = id
                 ∧ x = Question.format q)
    ∧ ((∀ q, q ∈ questions w → Question.category q ≠ id) → page = []).
Proof.
  intros Hkey Hin Hid. do 3 eexists.
  split; [by apply (get_questions_by_category_found req id c w) |].
  split; [reflexivity |]. split; [reflexivity |]. split.
  - intros x Hx. unfold paginate_questions in Hx.
    apply py_slice_elem_of, list_elem_of_fmap in Hx as (q & -> & Hq).
    apply list_elem_of_In, filter_In in Hq as [Hq Hcat].
    exists q. split; [by apply list_elem_of_In |]. split; [lia | done].
  - intros Hnone.
    replace (List.filter _ (questions w)) with (@nil Question.t);
      [apply paginate_questions_nil |].
    symmetry. induction (questions w) as [| q qs IH]; [done |]. simpl.
    destruct (Z.eqb_spec id (Question.category q)) as [Heq | _].
    + exfalso. by apply (Hnone q); [apply list_elem_of_here |].
    + apply IH. intros q' Hq'. apply Hnone. by apply list_elem_of_further.
Qed.

End Listings.

(** ** Creating and deleting questions *)

Section Store.
Context `{Platform}.

(** The world after a row was appended under the next key. *)
Lemma create_question_run (req : request) (m : gmap string json)
    (vq va vd vc : json) (w : world) :
  get_json req = JObj m →
  default (JStr "") (m !! "question") = vq →
  default (JStr "") (m !! "answer") = va →
  default (JStr "") (m !! "difficulty") = vd →
  default (JStr "") (m !! "category") = vc →
  create_question req w
  = (if py_eq_empty_str vq || py_eq_empty_str va
        || py_eq_empty_str vd || py_eq_empty_str vc
     then abort 422
     else except_IndexError
            (Question_insert vq va vd vc;;
             mret (jsonify
                     (<["success" := JBool true]>
                     (<["message" :=
                          JStr "Question successfully created!"]> ∅)),
                   201))
            (abort 422)) w.
Proof.
  intros Hbody <- <- <- <-. unfold create_question. by rewrite Hbody.
Qed.

(** X10: a body with the four fields, none of them the empty string and
    each accepted by its column, is answered 201; the question is appended
    to the table under the next key, which moves on by one, and nothing
    else of the store changes. *)
Theorem create_question_inserts (req : request) (m : gmap string json)
    (vq va vd vc : json) (q a : string) (d c : Z) (w : world) :
  get_json req = JObj m →
  m !! "question" = Some vq → m !! "answer" = Some va →
  m !! "difficulty" = Some vd → m !! "category" = Some vc →
  py_eq_empty_str vq = false → py_eq_empty_str va = false →
  py_eq_empty_str vd = false → py_eq_empty_str vc = false →
  db_text vq = Some q → db_text va = Some a →
  db_int vd = Some d → db_int vc = Some c →
  let row := Question.Build (serial w) q a c d in
  create_question req w
  = (Return (jsonify
               (<["success" := JBool true]>
               (<["message" := JStr "Question successfully created!"]> ∅)),
             201),
     World (questions w ++ [row]) (categories w) (serial w + 1)
           (issued w ++ [InsertQuestion row]) (entropy w) (drawn w)).
Proof.
  intros Hbody Hq Ha Hd Hc Eq Ea Ed Ec Bq Ba Bd Bc row.
  rewrite (create_question_run req m vq va vd vc)
    by (done || by rewrite ?Hq, ?Ha, ?Hd, ?Hc).
  rewrite Eq, Ea, Ed, Ec. simpl.
  unfold except_IndexError, Question_insert. rewrite Bq, Ba, Bd, Bc.
  reflexivity.
Qed.

(** A body without one of the four fields is refused before the store is
    touched. *)
Lemma create_question_refused (req : request) (m : gmap string json)
    (key : string) (w : world) :
  get_json req = JObj m →
  key ∈ ["question"; "answer"; "difficulty"; "category"] →
  m !! key = None ∨ m !! key = Some (JStr "") →
  create_question req w = (Abort 422, w).
Proof.
  intros Hbody Hkey Hempty.
  assert (py_eq_empty_str (default (JStr "") (m !! key)) = true) as Hval
    by (by destruct Hempty as [-> | ->]).
  rewrite (create_question_run req m _ _ _ _ w Hbody eq_refl eq_refl
             eq_refl eq_refl).
  repeat (apply elem_of_cons in Hkey as [-> | Hkey]);
    [.. | by apply elem_of_nil in Hkey];
    rewrite Hval, ?orb_true_r; reflexivity.
Qed.

(** A body that is no object has no [get]. *)
Lemma create_question_body_not_object (req : request) (w : world) :
  (∀ m, get_json req ≠ JObj m) →
  create_question req w = (Raise AttributeError, w).
Proof.
  intros Hshape. unfold create_question.
  destruct (get_json req) as [| | | | | m]; try done.
  by destruct (Hshape m).
Qed.

(** X11: what POST /questions refuses.  A body that is an object in which
    one of the four fields is missing or is the empty string is answered
    422, whatever the other fields hold; a body that is no object (null, a
    list, a string, a number) ends the view in [AttributeError], answered
    with the server's 500 page.  Either way the world is left as it
    was. *)
Theorem create_question_refuses_empty (req : request) (w : world) :
  (∀ (m : gmap string json) (key : string),
     get_json req = JObj m →
     key ∈ ["question"; "answer"; "difficulty"; "category"] →
     m !! key = None ∨ m !! key = Some (JStr "") →
     create_question req w = (Abort 422, w)
     ∧ handle_result (Abort 422)
       = Json (error_body 422 "Unprocessable entity!") 422)
  ∧ ((∀ m, get_json req ≠ JObj m) →
     create_question req w = (Raise AttributeError, w)
     ∧ handle_result (Raise AttributeError) = ErrorPage 500).
Proof.
  split.
  - intros m key Hbody Hkey Hempty. split; [| done].
    by apply (create_question_refused req m key).
  - intros Hshape. split; [| done].
    by apply create_question_body_not_object.
Qed.

(** Whatever the create view returns, it returns after one insertion. *)
Lemma create_question_returned (req : request) (r : response)
    (w w1 : world) :
  create_question req w = (Return r, w1) →
  ∃ row,
    Question.id row = serial w
    ∧ questions w1 = questions w ++ [row]
    ∧ categories w1 = categories w
    ∧ serial w1 = serial w + 1
    ∧ r.2 = 201.
Proof.
  unfold create_question.
  destruct (get_json req) as [| | | | | m]; try done.
  run_view.
  destruct (_ || _); [done |].
  unfold except_IndexError, Question_insert.
  destruct (db_text (default _ (m !! "question"))) as [q |]; [| done].
  destruct (db_text (default _ (m !! "answer"))) as [a |]; [| done].
  destruct (db_int (default _ (m !! "difficulty"))) as [d |]; [| done].
  destruct (db_int (default _ (m !! "category"))) as [c |]; [| done].
  run_view. intros [= <- <-].
  exists (Question.Build (serial w) q a c d). by repeat split.
Qed.

Lemma find_app_absent {A : Type} (f : A → bool) (l l' : list A) :
  List.find f l = None → List.find f (l ++ l') = List.find f l'.
Proof.
  induction l as [| x l IH]; [done |]. simpl. by destruct (f x).
Qed.

Lemma filter_other_ids (id : Z) (qs : list Question.t) :
  id ∉ Question.id <$> qs →
  List.filter (λ q, negb (Question.id q =? id)) qs = qs.
Proof.
  induction qs as [| q qs IH]; [done |].
  rewrite fmap_cons, not_elem_of_cons. intros [Hne Hnot]. simpl.
  destruct (Z.eqb_spec (Question.id q) id) as [Heq | _]; [congruence |].
  simpl. f_equal. by apply IH.
Qed.

Lemma delete_question_run (id : Z) (q : Question.t) (w : world) :
  List.find (λ q, Question.id q =? id) (questions w) = Some q →
  delete_question id w
  = (Return (jsonify
               (<["success" := JBool true]>
               (<["message" := JStr "Question successfully deleted!"]> ∅)),
             200),
     World (List.filter (λ q', negb (Question.id q' =? id)) (questions w))
           (categories w) (serial w)
           (issued w ++ [GetQuestion id; DeleteQuestion id])
           (entropy w) (drawn w)).
Proof.
  intros Hq.
  assert (Question.id q = id) as Hid.
  { apply find_some in Hq as [_ Hq]. lia. }
  unfold delete_question, except_IndexError, Question_query_get,
    Question_delete.
  run_view. rewrite Hq. run_view. rewrite Hid.
  by rewrite <- app_assoc.
Qed.

(** X12: whenever POST /questions is answered with a created question and
    the next key was not in use, deleting that key is answered 200 and
    gives back the table as it was before the creation; the key is not
    handed out again. *)
Theorem create_then_delete_restores (req : request) (r : response)
    (w w1 : world) :
  create_question req w = (Return r, w1) →
  serial w ∉ Question.id <$> questions w →
  ∃ body w2,
    delete_question (serial w) w1 = (Return (body, 200), w2)
    ∧ questions w2 = questions w
    ∧ categories w2 = categories w
    ∧ serial w2 = serial w + 1.
Proof.
  intros (row & Hid & Hqs & Hcs & Hserial & _)%create_question_returned
    Hfresh.
  assert (List.find (λ q, Question.id q =? serial w) (questions w1)
          = Some row) as Hfind.
  { rewrite Hqs, find_app_absent by (by apply find_question_absent).
    simpl. by rewrite Hid, Z.eqb_refl. }
  do 2 eexists.
  split; [by apply (delete_question_run (serial w) row) |]. simpl.
  split; [| done].
  rewrite Hqs, List.filter_app, filter_other_ids by done. simpl.
  rewrite Hid, Z.eqb_refl. simpl. by rewrite app_nil_r.
Qed.

Lemma length_filter_one (id : Z) (qs : list Question.t) :
  NoDup (Question.id <$> qs) → id ∈ Question.id <$> qs →
  (length (List.filter (λ q, negb (Question.id q =? id)%Z) qs) + 1
   = length qs)%nat.
Proof.
  induction qs as [| q qs IH]; [by intros _ ?%elem_of_nil |].
  rewrite fmap_cons. intros [Hfresh Hnd]%NoDup_cons Hin. simpl.
  destruct (Z.eqb_spec (Question.id q) id) as [Heq | Hne]; simpl.
  - rewrite filter_other_ids by (by rewrite <- Heq). lia.
  - apply elem_of_cons in Hin as [? | Hin]; [congruence |].
    rewrite <- (IH Hnd Hin). lia.
Qed.

(** X13: deleting an id that some question has is answered 200; exactly
    the questions of that id leave the table, the others stay in their
    order, categories and next key are untouched, and with distinct ids
    the table is shorter by one. *)
Theorem delete_question_removes (id : Z) (w : world) :
  id ∈ Question.id <$> questions w →
  ∃ body w',
    delete_question id w = (Return (body, 200), w')
    ∧ field body "message" = Some (JStr "Question successfully deleted!")
    ∧ questions w'
      = List.filter (λ q, negb (Question.id q =? id)) (questions w)
    ∧ (∀ q, q ∈ questions w' ↔ q ∈ questions w ∧ Question.id q ≠ id)
    ∧ categories w' = categories w
    ∧ serial w' = serial w
    ∧ (NoDup (Question.id <$> questions w) →
       (length (questions w') + 1 = length (questions w))%nat).
Proof.
  intros Hin. destruct (find_question_present id _ Hin) as (q & Hq & _).
  do 2 eexists. split; [by apply (delete_question_run id q) |]. simpl.
  split; [done |]. split; [done |]. split; [| split; [done |]].
  - intros q'. rewrite list_elem_of_In, filter_In, <- list_elem_of_In.
    rewrite negb_true_iff, Z.eqb_neq. done.
  - split; [done |]. intros Hnd. by apply length_filter_one.
Qed.

(** X14: a deletion cannot be repeated: after a question was deleted, a
    second request for the same id finds no row and ends in
    [AttributeError], answered with the server's 500 page. *)
Theorem delete_question_twice (id : Z) (w : world) :
  id ∈ Question.id <$> questions w →
  let w1 := (delete_question id w).2 in
  (delete_question id w1).1 = Raise AttributeError
  ∧ questions (delete_question id w1).2 = questions w1
  ∧ handle_result (delete_question id w1).1 = ErrorPage 500.
Proof.
  intros Hin w1.
  destruct (find_question_present id _ Hin) as (q & Hq & _).
  assert (id ∉ Question.id <$> questions w1) as Hgone.
  { unfold w1. rewrite (delete_question_run id q w Hq). simpl.
    rewrite list_elem_of_fmap. intros (q' & -> & Hq').
    apply list_elem_of_In, filter_In in Hq' as [_ Hkeep].
    by rewrite Z.eqb_refl in Hkeep. }
  assert (delete_question id w1
          = (Raise AttributeError, logged w1 [GetQuestion id])) as ->.
  { unfold delete_question, except_IndexError, Question_query_get,
      Question_delete.
    run_view. by rewrite find_question_absent. }
  done.
Qed.

End Store.

(** ** Posting a search term *)

Section SearchTerm.
Context `{Platform}.

(** C6 (amended): a POST /questions request whose body is an object with
    an empty or a missing search term and without one of the four fields
    of a question is answered 422 by the unprocessable-entity handler, and
    the world is left as it was: no statement reaches the store, so
    nothing is searched and an empty term matches nothing. *)
Theorem post_questions_empty_search_term (fuel : nat) (req : request)
    (m : gmap string json) (key : string) (w : world) :
  method req = POST → path req = ["questions"] →
  get_json req = JObj m →
  m !! "searchTerm" = None ∨ m !! "searchTerm" = Some (JStr "") →
  key ∈ ["question"; "answer"; "difficulty"; "category"] →
  m !! key = None ∨ m !! key = Some (JStr "") →
  dispatch_request fuel req w = (Abort 422, w)
  ∧ full_dispatch_request fuel req w
    = (Json (error_body 422 "Unprocessable entity!") 422, w)
  ∧ issued (full_dispatch_request fuel req w).2 = issued w.
Proof.
  intros Hm Hp Hbody _ Hkey Hempty.
  assert (dispatch_request fuel req w = (Abort 422, w)) as Hrun.
  { rewrite (dispatch_post_questions fuel req Hm Hp).
    by apply (create_question_refused req m key). }
  unfold full_dispatch_request. by rewrite Hrun.
Qed.

End SearchTerm.

(** ** Runs of the quiz view *)

Section QuizRuns.
Context `{Platform}.

Lemma existsb_previous_ids (ids : list Z) (z : Z) :
  existsb (λ x, py_eq_int x z) (JNum <$> ids) = bool_decide (z ∈ ids).
Proof.
  induction ids as [| i ids IH]; [done |].
  rewrite fmap_cons. cbn [existsb py_eq_int]. rewrite IH.
  destruct (Z.eqb_spec i z) as [-> | Hne]; simpl.
  - symmetry. apply bool_decide_eq_true. apply list_elem_of_here.
  - apply bool_decide_ext. rewrite elem_of_cons.
    split; [by right | by intros [-> | Hin]].
Qed.

Lemma nth_draw_drew (pool : list Question.t) (w : world) (i : nat) :
  nth_draw pool (drew w) i = nth_draw pool w (S i).
Proof. unfold nth_draw. simpl. by rewrite Nat.add_succ_r. Qed.

(** The loop returns the first question it tests that is not among the
    previous ones, after as many draws as it tested seen ones. *)
Lemma while_found_first_unseen (pool : list Question.t) (ids : list Z) :
  pool ≠ [] →
  ∀ (j fuel : nat) (nq q : Question.t) (w : world),
    (j < fuel)%nat →
    (∀ i, (i < j)%nat →
          ∃ qi, match i with
                | O => Some nq
                | S i' => nth_draw pool w i'
                end = Some qi
                ∧ Question.id qi ∈ ids) →
    match j with
    | O => Some nq
    | S j' => nth_draw pool w j'
    end = Some q →
    Question.id q ∉ ids →
    ∃ w', while_found fuel pool (JArr (JNum <$> ids)) nq w = (Return q, w')
          ∧ drawn w' = (drawn w + j)%nat
          ∧ store w' = store w.
Proof.
  intros Hne j. induction j as [| j IH]; intros fuel nq q w Hfuel Hseen Hq Hnew;
    (destruct fuel as [| fuel]; [lia |]); simpl; run_view;
    rewrite existsb_previous_ids.
  - injection Hq as ->. rewrite bool_decide_eq_false_2 by done.
    exists w. by rewrite Nat.add_0_r.
  - destruct (Hseen 0%nat) as (q0 & [= <-] & Hin0); [lia |].
    rewrite bool_decide_eq_true_2 by done.
    destruct (get_random_question_member pool w Hne) as (q1 & -> & _ & Hq1).
    assert (nth_draw pool w 0 = Some q1) as Hdraw0
      by (unfold nth_draw; by rewrite Nat.add_0_r).
    destruct (IH fuel q1 q (drew w)) as (w' & Hrun & Hdrawn & Hstore).
    + lia.
    + intros i Hi. destruct (Hseen (S i)) as (qi & Hqi & Hin); [lia |].
      exists qi. split; [| done]. destruct i as [| i].
      * by rewrite <- Hdraw0.
      * by rewrite nth_draw_drew.
    + destruct j as [| j]; [by rewrite <- Hdraw0 | by rewrite nth_draw_drew].
    + done.
    + exists w'. split; [done |]. split; [| done].
      rewrite Hdrawn. simpl. lia.
Qed.

(** X15: the quiz view returns as soon as it can.  When the first j
    questions it draws are among the previous ones and the next is not,
    every run allowed more than j tests is answered 200 with that
    question, after j + 1 draws and with the store untouched. *)
Theorem quiz_returns_first_unseen_draw (fuel j : nat) (req : request)
    (m k : gmap string json) (c : Z) (ids : list Z) (q : Question.t)
    (w : world) :
  get_json req = JObj m →
  m !! "previous_questions" = Some (JArr (JNum <$> ids)) →
  m !! "quiz_category" = Some (JObj k) →
  k !! "id" = Some (JNum c) →
  (∀ i, (i < j)%nat →
        ∃ qi, nth_draw (candidate_pool c w) w i = Some qi
              ∧ Question.id qi ∈ ids) →
  nth_draw (candidate_pool c w) w j = Some q →
  Question.id q ∉ ids →
  (j < fuel)%nat →
  ∃ w',
    get_random_quiz_question fuel req w
    = (Return (jsonify (<["success" := JBool true]>
                       (<["question" := Question.format q]> ∅)), 200), w')
    ∧ drawn w' = (drawn w + j + 1)%nat
    ∧ store w' = store w.
Proof.
  intros Hbody Hprev Hcat Hid Hseen Hq Hnew Hfuel.
  rewrite (get_random_quiz_question_decoded fuel req m k c _ w) by done.
  set (pool := candidate_pool c w) in *.
  set (w0 := logged w [pool_statement c]).
  assert (pool ≠ []) as Hne.
  { intros Hnil. unfold nth_draw in Hq. by rewrite Hnil in Hq. }
  destruct (get_random_question_member pool w0 Hne) as (q1 & Hrun & _ & Hq1).
  assert (nth_draw pool w 0 = Some q1) as Hdraw0
    by (unfold nth_draw; by rewrite Nat.add_0_r).
  destruct (while_found_first_unseen pool ids Hne j fuel q1 q (drew w0))
    as (w' & Hloop & Hdrawn & Hstore); try done.
  - intros i Hi. destruct (Hseen i Hi) as (qi & Hqi & Hin).
    exists qi. split; [| done]. destruct i as [| i].
    + by rewrite <- Hdraw0.
    + by rewrite nth_draw_drew.
  - destruct j as [| j]; [by rewrite <- Hdraw0 | by rewrite nth_draw_drew].
  - exists w'. unfold mbind, view_bind. rewrite Hrun, Hloop.
    split; [done |]. split; [| done]. rewrite Hdrawn. simpl. lia.
Qed.

(** X16: the view checks that the category and the previous questions are
    there, not what they are.  A category that is an object without an
    [id] ends the view in [KeyError], and a category that is no object in
    [TypeError]; both are answered with the server's 500 page, before any
    query or draw. *)
Theorem quiz_category_without_id (fuel : nat) (req : request)
    (m : gmap string json) (prev cat : json) (w : world) :
  get_json req = JObj m →
  m !! "previous_questions" = Some prev → py_is_None prev = false →
  m !! "quiz_category" = Some cat → py_is_None cat = false →
  (∀ k, cat = JObj k → k !! "id" = None) →
  get_random_quiz_question fuel req w
  = (Raise (match cat with JObj _ => KeyError | _ => TypeError end), w)
  ∧ handle_result
      (Raise (match cat with JObj _ => KeyError | _ => TypeError end))
    = ErrorPage 500.
Proof.
  intros Hbody Hprev Hprev_some Hcat Hcat_some Hno_id. split; [| done].
  unfold get_random_quiz_question. rewrite Hbody. run_view.
  rewrite Hprev, Hcat. simpl. rewrite Hprev_some, Hcat_some. simpl.
  destruct cat as [| | | | | k]; try done. simpl.
  by rewrite (Hno_id k eq_refl).
Qed.

End QuizRuns.

(** ** The answers of the application *)

Section Answers.
Context `{Platform}.

Lemma ends_ret {A : Type} (P : A → Prop) (R : Prop) (a : A) :
  P a → ends P R (mret a).
Proof. by intros Ha w. Qed.

Lemma ends_abort {A : Type} (P : A → Prop) (R : Prop) (s : Z) :
  s ∈ abort_codes → ends P R (abort s).
Proof. by intros Hs w. Qed.

Lemma ends_raise {A : Type} (P : A → Prop) (R : Prop) (e : exception) :
  ends P R (raise e).
Proof. by intros w. Qed.

Lemma ends_gets {A : Type} (R : Prop) (g : world → A) :
  ends (λ _, True) R (gets g).
Proof. by intros w. Qed.

Lemma ends_send (R : Prop) (s : statement) : ends (λ _, True) R (send s).
Proof. by intros w. Qed.

Lemma ends_set_questions (R : Prop) (qs : list Question.t) (next : Z) :
  ends (λ _, True) R (set_questions qs next).
Proof. by intros w. Qed.

Lemma ends_randint (R : Prop) (a b : Z) : ends (λ _, True) R (randint a b).
Proof. intros w. unfold randint. by destruct (b <? a). Qed.

Lemma ends_bind {A B : Type} (P : A → Prop) (Q : B → Prop) (R : Prop)
    (m : view A) (k : A → view B) :
  ends P R m → (∀ a, P a → ends Q R (k a)) → ends Q R (m ≫= k).
Proof.
  intros Hm Hk w. unfold mbind, view_bind.
  specialize (Hm w). destruct (m w) as [[a | s | e |] w1]; simpl in *;
    try done.
  by apply Hk.
Qed.

Lemma ends_except_IndexError {A : Type} (P : A → Prop) (R : Prop)
    (body handler : view A) :
  ends P R body → ends P R handler →
  ends P R (except_IndexError body handler).
Proof.
  intros Hb Hh w. unfold except_IndexError.
  specialize (Hb w). destruct (body w) as [[a | s | [] |] w1]; simpl in *;
    try done.
  apply Hh.
Qed.

Lemma ends_except_Exception {A : Type} (P : A → Prop) (R : Prop)
    (body handler : view A) :
  ends P R body → ends P R handler →
  ends P R (except_Exception body handler).
Proof.
  intros Hb Hh w. unfold except_Exception.
  specialize (Hb w). destruct (body w) as [[a | s | e |] w1]; simpl in *;
    try done; apply Hh.
Qed.

(** What Python hands back is a value or an exception. *)
Lemma ends_py_get (R : Prop) (v : json) (k : string) (dflt : json) :
  ends (λ _, True) R (lift (py_get v k dflt)).
Proof. intros w. by destruct v. Qed.

Lemma ends_py_getitem (R : Prop) (v : json) (k : string) :
  ends (λ _, True) R (lift (py_getitem v k)).
Proof.
  intros w. destruct v as [| | | | | kv]; try done. simpl.
  by destruct (kv !! k).
Qed.

Lemma ends_py_in (R : Prop) (z : Z) (v : json) :
  ends (λ _, True) R (lift (py_in z v)).
Proof. intros w. by destruct v. Qed.

Lemma ends_py_index {A : Type} (R : Prop) (l : list A) (i : Z) :
  ends (λ _, True) R (lift (py_index l i)).
Proof.
  intros w. unfold py_index, lift. simpl.
  destruct (_ && _); [| done]. by destruct (l !! _).
Qed.

Lemma ends_load_name (R : Prop) (locals : list string) (x : string) :
  ends (λ _, True) R (load_name locals x).
Proof. unfold load_name. case_match; [by apply ends_ret | apply ends_raise]. Qed.

Lemma ends_Question_query_all (R : Prop) :
  ends (λ _, True) R Question_query_all.
Proof.
  eapply ends_bind; [apply ends_send | intros; apply ends_gets].
Qed.

Lemma ends_Category_query_all (R : Prop) :
  ends (λ _, True) R Category_query_all.
Proof.
  eapply ends_bind; [apply ends_send | intros; apply ends_gets].
Qed.

Lemma ends_Question_query_filter_by_category (R : Prop) (key : json) :
  ends (λ _, True) R (Question_query_filter_by_category key).
Proof.
  unfold Question_query_filter_by_category. case_match.
  - eapply ends_bind; [apply ends_send | intros; apply ends_gets].
  - apply ends_raise.
Qed.

Lemma ends_get_random_question (R : Prop) (pool : list Question.t) :
  ends (λ _, True) R (get_random_question pool).
Proof.
  eapply ends_bind; [apply ends_randint | intros; apply ends_py_index].
Qed.

Lemma ends_while_found (fuel : nat) (pool : list Question.t) (prev : json)
    (q : Question.t) :
  ends (λ _, True) True (while_found fuel pool prev q).
Proof.
  revert q. induction fuel as [| fuel IH]; intros q; simpl; [by intros w |].
  eapply ends_bind; [apply ends_py_in |].
  intros [|] _; [| by apply ends_ret].
  eapply ends_bind; [apply ends_get_random_question | by intros].
Qed.

Lemma abort_code (s : Z) : bool_decide (s ∈ abort_codes) = true →
  s ∈ abort_codes.
Proof. apply bool_decide_eq_true_1. Qed.

Lemma ends_get_all_categories : ends ok_response False get_all_categories.
Proof.
  apply ends_except_Exception; [| by apply ends_abort, abort_code].
  eapply ends_bind; [apply ends_Category_query_all | intros cs _].
  apply ends_ret. split; [done | by left].
Qed.

Lemma ends_get_questions (req : request) :
  ends ok_response False (get_questions req).
Proof.
  eapply ends_bind; [apply ends_Question_query_all | intros qs _].
  eapply ends_bind; [apply ends_Category_query_all | intros cs _].
  cbv zeta. case_match; [by apply ends_abort, abort_code |].
  apply ends_ret. split; [done | by left].
Qed.

Lemma ends_delete_question (id : Z) :
  ends ok_response False (delete_question id).
Proof.
  apply ends_except_IndexError; [| by apply ends_abort, abort_code].
  eapply ends_bind.
  { eapply ends_bind; [apply ends_send | intros; apply ends_gets]. }
  intros [q |] _.
  - eapply ends_bind; [| intros; apply ends_ret; split; [done | by left]].
    eapply ends_bind; [apply ends_send | intros _ _].
    eapply ends_bind; [apply ends_gets | intros rows _].
    eapply ends_bind; [apply ends_gets | intros next _].
    apply ends_set_questions.
  - eapply ends_bind; [apply (ends_raise (λ _, True)) |].
    intros. apply ends_ret. split; [done | by left].
Qed.

Lemma ends_create_question (req : request) :
  ends ok_response False (create_question req).
Proof.
  do 4 (eapply ends_bind; [apply ends_py_get | intros ? _]).
  case_match; [by apply ends_abort, abort_code |].
  apply ends_except_IndexError; [| by apply ends_abort, abort_code].
  eapply ends_bind; [| intros; apply ends_ret; split; [done | by right]].
  unfold Question_insert.
  repeat case_match; try apply (ends_raise (λ _, True)).
  eapply ends_bind; [apply ends_gets | intros rows _].
  eapply ends_bind; [apply ends_gets | intros next _].
  eapply ends_bind; [apply ends_send | intros _ _].
  apply ends_set_questions.
Qed.

Lemma ends_search_questions (req : request) :
  ends ok_response False (search_questions req).
Proof. intros w. by rewrite search_questions_NameError. Qed.

Lemma ends_get_questions_by_category (req : request) (id : Z) :
  ends ok_response False (get_questions_by_category req id).
Proof.
  eapply ends_bind.
  - eapply ends_bind; [apply ends_send | intros _ _].
    eapply ends_bind; [apply ends_gets | intros rows _].
    destruct rows as [| c [| c' rows]];
      [by apply (ends_ret (λ _, True)) | by apply (ends_ret (λ _, True))
       | apply ends_raise].
  - intros [c |] _; [| by apply ends_abort, abort_code].
    eapply ends_bind;
      [apply ends_Question_query_filter_by_category | intros sel _].
    eapply ends_bind; [apply ends_Question_query_all | intros all _].
    apply ends_ret. split; [done | by left].
Qed.

Lemma ends_get_random_quiz_question (fuel : nat) (req : request) :
  ends ok_response True (get_random_quiz_question fuel req).
Proof.
  eapply ends_bind; [apply ends_py_get | intros prev _].
  eapply ends_bind; [apply ends_py_get | intros cat _].
  case_match; [by apply ends_abort, abort_code |].
  eapply ends_bind; [apply ends_py_getitem | intros scope _].
  eapply ends_bind.
  { case_match; [apply ends_Question_query_all |
                 apply ends_Question_query_filter_by_category]. }
  intros pool _.
  eapply ends_bind; [apply ends_get_random_question | intros q _].
  eapply ends_bind; [apply ends_while_found | intros q' _].
  apply ends_ret. split; [done | by left].
Qed.

Lemma ends_weaken (R : Prop) (m : view response) :
  ends ok_response False m → ends ok_response R m.
Proof. intros Hm w. specialize (Hm w). by destruct (m w).1. Qed.

(** Every view ends as a view may, and only the quiz view can go on. *)
Lemma ends_view_functions (fuel : nat) (e : endpoint.t) (values : list Z)
    (req : request) :
  ends ok_response (e = endpoint.get_random_quiz_question)
       (view_functions fuel e values req).
Proof.
  destruct e; simpl.
  - destruct values; [apply ends_weaken, ends_get_all_categories
                     | apply ends_raise].
  - destruct values; [apply ends_weaken, ends_get_questions
                     | apply ends_raise].
  - destruct values as [| id [| id' vs]];
      [apply ends_raise | apply ends_weaken, ends_delete_question
       | apply ends_raise].
  - destruct values; [apply ends_weaken, ends_create_question
                     | apply ends_raise].
  - destruct values; [apply ends_weaken, ends_search_questions
                     | apply ends_raise].
  - destruct values as [| id [| id' vs]];
      [apply ends_raise
       | apply ends_weaken, ends_get_questions_by_category
       | apply ends_raise].
  - destruct values; [| apply ends_raise].
    intros w. pose proof (ends_get_random_quiz_question fuel req w) as Hq.
    destruct (get_random_quiz_question fuel req w).1; try done.
Qed.

(** X17: what the views answer through the error handlers of the
    application, whichever view runs and whatever the request holds.  A
    JSON body either reports success under 200 or 201, or reports failure
    under 400, 404 or 422 with that status as its error code; anything
    else is the server's error page under 500; and no view but the quiz
    view can stay without an answer. *)
Theorem answers_classified (fuel : nat) (e : endpoint.t)
    (values : list Z) (req : request) (w : world) :
  match handle_result (view_functions fuel e values req w).1 with
  | Json body status =>
      (field body "success" = Some (JBool true)
       ∧ (status = 200 ∨ status = 201))
      ∨ (field body "success" = Some (JBool false)
         ∧ field body "error" = Some (JNum status)
         ∧ (status = 400 ∨ status = 404 ∨ status = 422))
  | ErrorPage status => status = 500
  | Unanswered => e = endpoint.get_random_quiz_question
  end.
Proof.
  pose proof (ends_view_functions fuel e values req w) as Hends.
  destruct (view_functions fuel e values req w) as [[[body st] | s | x |] w'];
    simpl in *.
  - left. exact Hends.
  - unfold abort_codes in Hends.
    repeat (apply elem_of_cons in Hends as [-> | Hends]);
      [.. | by apply elem_of_nil in Hends]; simpl; auto 10.
  - done.
  - done.
Qed.

End Answers.

(** ** The further results on the sample catalogue *)

Lemma paginate_questions_covers_witness :
  sample_selection !! 23%nat = Some (sample_question 24)
  ∧ paginate_questions (page_request "3") sample_selection !! 3%nat
    = Some (Question.format (sample_question 24)).
Proof.
  split; [reflexivity |].
  apply (paginate_questions_covers (page_request "3") sample_selection
           23 (sample_question 24)); reflexivity.
Defined.

Lemma paginate_questions_below_one_witness :
  -1 ≤ 0
  ∧ paginate_questions (page_request "-1") sample_selection
    = drop 5 (take 15 (map Question.format sample_selection)).
Proof.
  split; [lia |].
  apply (paginate_questions_below_one (page_request "-1") sample_selection
           (-1)); [lia | reflexivity | lia].
Defined.

Lemma search_questions_never_routed_witness :
  first_match (search_request "Chad") url_map
  = Some (endpoint.create_question, [])
  ∧ endpoint.create_question ≠ endpoint.search_questions.
Proof.
  split; [reflexivity |].
  apply (search_questions_never_routed (search_request "Chad")
           endpoint.create_question []).
  reflexivity.
Defined.

Lemma get_questions_page_or_404_witness :
  1 ≤ 2000
  ∧ get_questions (page_request "2000") sample_world
    = (Abort 404, logged sample_world [SelectQuestions; SelectCategories]).
Proof.
  split; [lia |].
  apply (get_questions_page_or_404 (page_request "2000") sample_world 2000);
    [lia | reflexivity | by vm_compute].
Defined.

Lemma get_questions_empty_table_witness :
  questions empty_world = []
  ∧ get_questions (page_request "1") empty_world
    = (Abort 404, logged empty_world [SelectQuestions; SelectCategories]).
Proof.
  split; [reflexivity |].
  apply (get_questions_empty_table (page_request "1") empty_world).
  reflexivity.
Defined.

Lemma get_questions_by_category_lists_witness :
  NoDup (Category.id <$> categories sample_world)
  ∧ ∃ body w' page,
      get_questions_by_category category_request 1 sample_world
      = (Return (body, 200), w')
      ∧ field body "questions" = Some (JArr page)
      ∧ ∀ x, x ∈ page →
             ∃ q, q ∈ questions sample_world ∧ Question.category q = 1
                  ∧ x = Question.format q.
Proof.
  assert (NoDup (Category.id <$> categories sample_world)) as Hkey
    by (by apply (bool_decide_unpack _)).
  split; [exact Hkey |].
  destruct (get_questions_by_category_lists category_request 1
              (Category.Build 1 "Science") sample_world Hkey)
    as (body & w' & page & Hrun & Hfield & _ & Hall & _).
  - apply list_elem_of_here.
  - reflexivity.
  - by exists body, w', page.
Defined.

Lemma create_question_inserts_witness :
  create_question create_request sample_world
  = (Return (jsonify
               (<["success" := JBool true]>
               (<["message" := JStr "Question successfully created!"]> ∅)),
             201),
     World (questions sample_world ++ [new_row]) (categories sample_world)
           25 [InsertQuestion new_row] (λ n, n) 0).
Proof.
  apply (create_question_inserts create_request new_question
           (JStr "What is the name of the developer that created this game?")
           (JStr "Chad Hendon") (JNum 1) (JStr "4") _ _ 1 4 sample_world);
    reflexivity.
Defined.

Lemma create_question_refuses_empty_witness :
  create_question
    (Request POST ["questions"] ∅
       (JObj (<["answer" := JStr ""]> new_question)))
    sample_world
  = (Abort 422, sample_world)
  ∧ create_question null_search_request sample_world
    = (Raise AttributeError, sample_world).
Proof.
  split.
  - apply (proj1 (create_question_refuses_empty
                    (Request POST ["questions"] ∅
                       (JObj (<["answer" := JStr ""]> new_question)))
                    sample_world)
             (<["answer" := JStr ""]> new_question) "answer").
    + reflexivity.
    + by apply (bool_decide_unpack _).
    + right. reflexivity.
  - apply (proj2 (create_question_refuses_empty null_search_request
                    sample_world)).
    intros m. discriminate.
Defined.

Lemma create_then_delete_restores_witness :
  (24 ∉ Question.id <$> questions sample_world)
  ∧ ∃ body w2,
      delete_question 24 (create_question create_request sample_world).2
      = (Return (body, 200), w2)
      ∧ questions w2 = questions sample_world
      ∧ serial w2 = 25.
Proof.
  assert (24 ∉ Question.id <$> questions sample_world) as Hfresh
    by (by apply (bool_decide_unpack _)).
  split; [exact Hfresh |].
  assert (create_question create_request sample_world
          = (Return (jsonify
                       (<["success" := JBool true]>
                       (<["message" :=
                            JStr "Question successfully created!"]> ∅)),
                     201),
             World (questions sample_world ++ [new_row])
                   (categories sample_world) 25 [InsertQuestion new_row]
                   (λ n, n) 0)) as Hcreated by reflexivity.
  destruct (create_then_delete_restores create_request _ sample_world _
              Hcreated Hfresh)
    as (body & w2 & Hrun & Hqs & _ & Hserial).
  exists body, w2. split; [| by split].
  by rewrite Hcreated.
Defined.

Lemma delete_question_removes_witness :
  (9 ∈ Question.id <$> questions sample_world)
  ∧ ∃ body w',
      delete_question 9 sample_world = (Return (body, 200), w')
      ∧ Question.id <$> questions w' = [5; 12; 20].
Proof.
  assert (9 ∈ Question.id <$> questions sample_world) as Hin
    by (by apply (bool_decide_unpack _)).
  split; [exact Hin |].
  destruct (delete_question_removes 9 sample_world Hin)
    as (body & w' & Hrun & _ & Hqs & _).
  exists body, w'. split; [exact Hrun |]. by rewrite Hqs.
Defined.

Lemma delete_question_twice_witness :
  (9 ∈ Question.id <$> questions sample_world)
  ∧ (delete_question 9 (delete_question 9 sample_world).2).1
    = Raise AttributeError.
Proof.
  assert (9 ∈ Question.id <$> questions sample_world) as Hin
    by (by apply (bool_decide_unpack _)).
  split; [exact Hin |].
  apply (delete_question_twice 9 sample_world Hin).
Defined.

Lemma quiz_returns_first_unseen_draw_witness :
  nth_draw (candidate_pool 1 sample_world) sample_world 2
  = Some (sample_question 12)
  ∧ ∃ w',
      get_random_quiz_question 3 (quiz_request [5; 9] 1) sample_world
      = (Return (jsonify
                   (<["success" := JBool true]>
                   (<["question" :=
                        Question.format (sample_question 12)]> ∅)), 200),
         w')
      ∧ drawn w' = 3%nat.
Proof.
  split; [reflexivity |].
  destruct (quiz_returns_first_unseen_draw 3 2 (quiz_request [5; 9] 1)
              (quiz_body [5; 9] 1)
              (<["type" := JStr "Science"]> (<["id" := JNum 1]> ∅))
              1 [5; 9] (sample_question 12) sample_world)
    as (w' & Hrun & Hdrawn & _); try reflexivity.
  - intros [| [| i]] Hi; [| | lia].
    + exists (sample_question 5). split; [reflexivity |].
      by apply (bool_decide_unpack _).
    + exists (sample_question 9). split; [reflexivity |].
      by apply (bool_decide_unpack _).
  - by apply (bool_decide_unpack _).
  - lia.
  - by exists w'.
Defined.

Lemma quiz_category_without_id_witness :
  get_random_quiz_question 5
    (Request POST ["quizzes"] ∅
       (JObj (<["previous_questions" := JArr []]>
             (<["quiz_category" :=
                  JObj {["type" := JStr "Science"]}]> ∅))))
    sample_world
  = (Raise KeyError, sample_world).
Proof.
  apply (quiz_category_without_id 5 _
           (<["previous_questions" := JArr []]>
            (<["quiz_category" := JObj {["type" := JStr "Science"]}]> ∅))
           (JArr []) (JObj {["type" := JStr "Science"]}) sample_world);
    try reflexivity.
  intros k [= <-]. reflexivity.
Defined.


Lemma post_questions_empty_search_term_witness :
  full_dispatch_request 0 (search_request "") sample_world
  = (Json (error_body 422 "Unprocessable entity!") 422, sample_world)
  ∧ issued (full_dispatch_request 0 (search_request "") sample_world).2
    = issued sample_world.
Proof.
  apply (post_questions_empty_search_term 0 (search_request "")
           (search_body "") "question" sample_world).
  - reflexivity.
  - reflexivity.
  - reflexivity.
  - right. reflexivity.
  - by apply (bool_decide_unpack _).
  - left. reflexivity.
Defined.

(** C6, as stated, fails twice over.  A body of JSON null carries no
    search term, and the request is answered with the server's 500 page;
    a body with an empty search term beside the four fields of a question
    is answered 201, and the question is inserted. *)
Lemma post_questions_empty_search_term_counterexample :
  (full_dispatch_request 0 null_search_request sample_world).1
  = ErrorPage 500
  ∧ new_question_with_term !! "searchTerm" = Some (JStr "")
  ∧ (full_dispatch_request 0
       (Request POST ["questions"] ∅ (JObj new_question_with_term))
       sample_world).1
    = Json (jsonify
              (<["success" := JBool true]>
              (<["message" := JStr "Question successfully created!"]> ∅)))
           201
  ∧ questions
      (full_dispatch_request 0
         (Request POST ["questions"] ∅ (JObj new_question_with_term))
         sample_world).2
    = questions sample_world ++ [new_row].
Proof. repeat split; reflexivity. Qed.

(** C8, as stated, fails on a body of JSON null: it names neither the
    category nor the previous questions, and the view ends in
    [AttributeError] before its guard; the request is answered with the
    server's 500 page, not by the bad-request handler. *)
Lemma quiz_requires_both_fields_counterexample :
  get_random_quiz_question 5 null_quiz_request sample_world
  = (Raise AttributeError, sample_world)
  ∧ (full_dispatch_request 5 null_quiz_request sample_world).1
    = ErrorPage 500
  ∧ (full_dispatch_request 5 null_quiz_request sample_world).1
    ≠ Json (error_body 400 "Bad request!") 400.
Proof. repeat split; try reflexivity. discriminate. Qed.
